(** * Block-explorer adapters (Blockcypher, Smoogs): a shallow embedding

    The two adapters of [lib/blockcypher.js] and [lib/smoogs.js], the fee
    model of [lib/models/feeestimation.js] and the error of [lib/errors.js]
    are written as functions over JavaScript values.  An operation is a
    function of its arguments and of what the HTTP transport answers; its
    result records the requests that were issued and how the call ended:
    an exception, or the arguments the caller's callback received. *)

From Stdlib Require Import Ascii DecimalString DecimalN.
From stdpp Require Import base numbers strings list gmap.

Local Open Scope string_scope.
Local Open Scope Z_scope.

(** ** JavaScript values *)

(** The values that travel through the adapters: [undefined] and what a JSON
    document holds.  A number is an integer (amounts in satoshis, indexes,
    block counts); an object lists its own properties, each name once, in
    the order in which they are enumerated. *)
#[warnings="-register-all"]
Inductive value :=
  | Undefined
  | Null
  | Bool (b : bool)
  | Num (n : Z)
  | Str (s : string)
  | Arr (items : list value)
  | Obj (props : list (string * value)).

(** Error objects.  [TransportError] is what the [request] library passes
    as [err]; [InvalidArgument] is thrown by bitcore's [$.checkArgument];
    [SyntaxError] by [JSON.parse]; [TypeError] by a property read on
    [undefined] or [null] and by a call of something that is no function;
    [CodecError] by a bitcore constructor that rejects its input;
    [RangeError] by [Array(length)] for a length from [2^32] on;
    [AlreadyBroadcastedError] is the error of [lib/errors.js], which keeps
    the message it is built with. *)
Inductive error :=
  | TransportError (message : string)
  | InvalidArgument
  | SyntaxError
  | TypeError
  | CodecError (message : string)
  | RangeError
  | AlreadyBroadcastedError (message : value).

(** A computation either completes with a value or throws. *)
Inductive completion (A : Type) :=
  | Normal (a : A)
  | Abrupt (e : error).
Arguments Normal {A} a.
Arguments Abrupt {A} e.

Definition bind {A B} (m : completion A) (k : A → completion B) : completion B :=
  match m with
  | Normal a => k a
  | Abrupt e => Abrupt e
  end.

Notation "'do' x <- m ; k" := (bind m (fun x => k))
  (at level 10, x name, m at level 100, k at level 200).

(** [Array.prototype.map] with a callback that may throw: elements are
    visited in order and the first exception ends the loop. *)
Fixpoint mapM {A B} (f : A → completion B) (l : list A) : completion (list B) :=
  match l with
  | [] => Normal []
  | x :: rest =>
      do y <- f x;
      do ys <- mapM f rest;
      Normal (y :: ys)
  end.

(** [$.checkArgument(condition)] *)
Definition checkArgument (condition : bool) : completion unit :=
  if condition then Normal tt else Abrupt InvalidArgument.

(** ** Built-in operations *)

(** ToBoolean *)
Definition truthy (v : value) : bool :=
  match v with
  | Undefined | Null => false
  | Bool b => b
  | Num n => negb (n =? 0)
  | Str s => negb (String.eqb s "")
  | Arr _ | Obj _ => true
  end.

Definition isString (v : value) : bool :=
  match v with Str _ => true | _ => false end.

Definition isNumber (v : value) : bool :=
  match v with Num _ => true | _ => false end.

Definition isArray (v : value) : bool :=
  match v with Arr _ => true | _ => false end.

Definition isUndefined (v : value) : bool :=
  match v with Undefined => true | _ => false end.

Fixpoint lookup_prop (k : string) (props : list (string * value)) : value :=
  match props with
  | [] => Undefined
  | (k', v) :: rest => if String.eqb k k' then v else lookup_prop k rest
  end.

(** [v.k], for the property names the adapters read, none of which is
    defined by a built-in prototype: reading from [undefined] or [null]
    throws, an object yields its own property, anything else [undefined]. *)
Definition getProp (v : value) (k : string) : completion value :=
  match v with
  | Undefined | Null => Abrupt TypeError
  | Obj props => Normal (lookup_prop k props)
  | _ => Normal Undefined
  end.

(** Strict equality with a string. *)
Definition strictEqualsStr (v : value) (s : string) : bool :=
  match v with Str s' => String.eqb s' s | _ => false end.

Fixpoint arrayIndexOf (items : list value) (s : string) (from : Z) : Z :=
  match items with
  | [] => -1
  | v :: rest => if strictEqualsStr v s then from else arrayIndexOf rest s (from + 1)
  end.

(** [String.prototype.indexOf(pattern)] *)
Definition stringIndexOf (s pattern : string) : Z :=
  match String.index 0 pattern s with
  | Some i => Z.of_nat i
  | None => -1
  end.

(** [v.indexOf(pattern)]: strings and arrays have the method; on any other
    value the call throws. *)
Definition indexOf (v : value) (pattern : string) : completion Z :=
  match v with
  | Str s => Normal (stringIndexOf s pattern)
  | Arr items => Normal (arrayIndexOf items pattern 0)
  | _ => Abrupt TypeError
  end.

(** The largest integer below which a Number holds every integer. *)
Definition MAX_SAFE_INTEGER : Z := 2 ^ 53 - 1.

(** The Number nearest to a non-negative integer: from [2^53] on a Number
    keeps 53 significant bits, and an integer half-way between two Numbers
    goes to the one whose last kept bit is 0.  An integer that is no Number
    stands for the Number nearest to it, as when [JSON.parse] reads it. *)
Definition roundToNumber (v : Z) : Z :=
  if v <? 2 ^ 53 then v
  else
    let u := 2 ^ (Z.log2 v - 52) in
    let q := v / u in
    let r := v mod u in
    if 2 * r <? u then q * u
    else if u <? 2 * r then (q + 1) * u
    else if Z.even q then q * u else (q + 1) * u.

Definition decimal (v : Z) : string :=
  NilEmpty.string_of_uint (N.to_uint (Z.to_N v)).

Definition digitCount (v : Z) : Z := Z.of_nat (String.length (decimal v)).

(** The decimal numeral with the fewest significant digits that still reads
    back as the Number [x], having as many digits before the point as [x]:
    with [k] significant digits the two candidates are [x] cut after [k]
    digits and the next numeral of [k] digits; of two that read back as [x]
    the nearer one is taken, the even one when they are as near. *)
Fixpoint shortestFrom (fuel : nat) (k : Z) (x : Z) : Z :=
  match fuel with
  | O => x
  | S fuel =>
      if digitCount x <? k then x
      else
        let p := 10 ^ (digitCount x - k) in
        let lo := x / p * p in
        let hi := lo + p in
        let okLo := roundToNumber lo =? x in
        let okHi := roundToNumber hi =? x in
        if okLo && okHi
        then if x - lo <? hi - x then lo
             else if hi - x <? x - lo then hi
             else if Z.even (x / p) then lo else hi
        else if okLo then lo
        else if okHi then hi
        else shortestFrom fuel (k + 1) x
  end.

Definition shortest (x : Z) : Z := shortestFrom 17 1 x.

Fixpoint stripZeros (fuel : nat) (v : Z) : Z :=
  match fuel with
  | O => v
  | S fuel => if (0 <? v) && (v mod 10 =? 0) then stripZeros fuel (v / 10) else v
  end.

(** Exponent notation: the significant digits, a point after the first
    when there are more, and the power of ten of the first digit. *)
Definition exponential (v : Z) : string :=
  let exponent := digitCount v - 1 in
  match decimal (stripZeros (Z.to_nat (digitCount v)) v) with
  | String d EmptyString => String d ("e+" +:+ decimal exponent)
  | String d rest => String d ("." +:+ rest +:+ "e+" +:+ decimal exponent)
  | EmptyString => ""
  end.

(** Number-to-string of a non-negative integer.  Up to [2^53 - 1] it is
    the decimal numeral.  Beyond, the shortest numeral that reads back as
    the same Number is printed: in full, padded with zeros, when it is
    below [10^21], and in exponent notation from [10^21] on.  What rounds
    to [2^1024] is [Infinity]. *)
Definition unsignedToString (n : Z) : string :=
  if n <=? MAX_SAFE_INTEGER then decimal n
  else
    let x := roundToNumber n in
    if 2 ^ 1024 <=? x then "Infinity"
    else
      let v := shortest x in
      if v <? 10 ^ 21 then decimal v else exponential v.

(** Number-to-string of an integer. *)
Definition Number_toString (n : Z) : string :=
  match n with
  | Zneg p => "-" +:+ unsignedToString (Zpos p)
  | _ => unsignedToString n
  end.

Fixpoint joinWith (sep : string) (parts : list string) : string :=
  match parts with
  | [] => ""
  | [p] => p
  | p :: rest => p +:+ sep +:+ joinWith sep rest
  end.

(** ToString.  An array joins its elements with commas, [undefined] and
    [null] elements giving the empty string. *)
Fixpoint ToString (v : value) : string :=
  match v with
  | Undefined => "undefined"
  | Null => "null"
  | Bool true => "true"
  | Bool false => "false"
  | Num n => Number_toString n
  | Str s => s
  | Arr items =>
      joinWith ","
        (map (fun item =>
                match item with
                | Undefined | Null => ""
                | _ => ToString item
                end) items)
  | Obj _ => "[object Object]"
  end.

(** White space of the ASCII range: tab, the line ends, and the space. *)
Definition isWhiteSpace (c : ascii) : bool :=
  let n := nat_of_ascii c in
  ((9 <=? n) && (n <=? 13))%nat || (n =? 32)%nat.

Fixpoint skipWhiteSpace (s : string) : string :=
  match s with
  | String c rest => if isWhiteSpace c then skipWhiteSpace rest else s
  | EmptyString => s
  end.

Definition digit (c : ascii) : option (Decimal.uint → Decimal.uint) :=
  match c with
  | "0"%char => Some Decimal.D0
  | "1"%char => Some Decimal.D1
  | "2"%char => Some Decimal.D2
  | "3"%char => Some Decimal.D3
  | "4"%char => Some Decimal.D4
  | "5"%char => Some Decimal.D5
  | "6"%char => Some Decimal.D6
  | "7"%char => Some Decimal.D7
  | "8"%char => Some Decimal.D8
  | "9"%char => Some Decimal.D9
  | _ => None
  end.

(** The longest prefix of decimal digits. *)
Fixpoint leadingDigits (s : string) : Decimal.uint :=
  match s with
  | String c rest =>
      match digit c with
      | Some d => d (leadingDigits rest)
      | None => Decimal.Nil
      end
  | EmptyString => Decimal.Nil
  end.

Definition digitsValue (s : string) : option Z :=
  match leadingDigits s with
  | Decimal.Nil => None
  | u => Some (Z.of_N (N.of_uint u))
  end.

(** [parseInt(v, 10)]: the argument is converted to a string, leading white
    space and a sign are skipped, and the longest run of decimal digits is
    read; [None] stands for [NaN]. *)
Definition parseInt10 (v : value) : option Z :=
  match skipWhiteSpace (ToString v) with
  | String "-" rest => Z.opp <$> digitsValue rest
  | String "+" rest => digitsValue rest
  | s => digitsValue s
  end.

(** ** The libraries the adapters are linked with *)

(** [JSON.parse]: the parsed document, or a [SyntaxError]. *)
Class Json := {
  JSON_parse : string → completion value
}.

(** The classes of bitcore-lib whose instances the adapters handle. *)
Class BitcoreTypes := {
  Address : Type;
  Network : Type;
  Transaction : Type;
  UnspentOutput : Type;
  Network_eq_dec :: EqDecision Network
}.

(** What a caller can pass to an adapter: a plain value, a function, or an
    instance of a bitcore class. *)
Inductive argument {T : BitcoreTypes} :=
  | AValue (v : value)
  | AFunction
  | AAddress (a : Address)
  | ANetwork (n : Network)
  | ATransaction (t : Transaction).

(** The object [blockcypherToBitcoreOutputFormat] builds for
    [UnspentOutput]. *)
Record outputFormat {T : BitcoreTypes} := {
  txId : value;
  outputIndex : value;
  satoshis : value;
  script : value;
  address : Address
}.

(** bitcore-lib, as far as the adapters use it.  [Address_new] is
    [new Address(x)], [Script_toAddress] is [new Address(new Script(x))],
    [UnspentOutput_new] and [UnspentOutput_ofValue] are the [UnspentOutput]
    constructor on the object above and on a member of a response body,
    [Transaction_new] is [new Transaction(x)], [Transaction_serialize t
    unsafe] is [t.serialize(unsafe)]. *)
Class Bitcore := {
  Bitcore_types :: BitcoreTypes;
  Networks_get : argument → option Network;
  Networks_livenet : Network;
  Networks_defaultNetwork : Network;
  JSUtil_isHexa : value → bool;
  Address_new : argument → completion Address;
  Address_toString : Address → string;
  Script_toAddress : value → completion Address;
  UnspentOutput_new : outputFormat → completion UnspentOutput;
  UnspentOutput_ofValue : value → completion UnspentOutput;
  UnspentOutput_txId : UnspentOutput → value;
  UnspentOutput_outputIndex : UnspentOutput → value;
  Transaction_new : value → completion Transaction;
  Transaction_serialize : Transaction → bool → completion value
}.

(** ** The HTTP transport *)

(** What the transport hands to the response handler: [err], and
    [res.statusCode] and [body], which are read only when [err] is
    [null]. *)
Record response := {
  err : option error;
  statusCode : Z;
  body : value
}.

Inductive method := GET | POST.

(** The [json] option of a request: absent, [true], or the data to post
    under one property name. *)
Inductive jsonOption {T : BitcoreTypes} :=
  | NoJson
  | JsonTrue
  | JsonData (name : string) (data : argument).

(** The options handed to [this.request]; the url is [this.url + path],
    kept as its two operands. *)
Record request {T : BitcoreTypes} := {
  req_method : method;
  req_base : argument;
  req_path : string;
  req_contentType : bool;
  req_json : jsonOption
}.

(** ** How a call ends *)

(** The first argument of the caller's callback. *)
Inductive errArg :=
  | ErrValue (v : value)
  | ErrObject (e : error)
  | ErrResponse (res : response).

Definition truthyErr (e : errArg) : bool :=
  match e with
  | ErrValue v => truthy v
  | _ => true
  end.

(** [err || body] and [err || res] *)
Definition errOrValue (err : option error) (v : value) : errArg :=
  match err with
  | Some e => ErrObject e
  | None => ErrValue v
  end.

Definition errOrResponse (res : response) : errArg :=
  match err res with
  | Some e => ErrObject e
  | None => ErrResponse res
  end.

(** A call ends when an exception leaves the adapter ([Threw]: out of the
    call itself, or out of a response handler, where nothing catches it) or
    when the caller's callback is invoked ([Called err result], [result]
    being [None] when the callback gets one argument only).  [Pending]:
    neither has happened. *)
Inductive outcome (R : Type) :=
  | Threw (e : error)
  | Called (err : errArg) (result : option R)
  | Pending.
Arguments Threw {R} e.
Arguments Called {R} err result.
Arguments Pending {R}.

Record run {T : BitcoreTypes} (R : Type) := {
  sent : list request;
  result : outcome R
}.
Arguments sent {_ R} r.
Arguments result {_ R} r.

Section Transport.
Context {T : BitcoreTypes}.

Definition truthyArg (a : argument) : bool :=
  match a with
  | AValue v => truthy v
  | _ => true
  end.

Definition isFunction (a : argument) : bool :=
  match a with AFunction => true | _ => false end.

Definition instanceofTransaction (a : argument) : bool :=
  match a with ATransaction _ => true | _ => false end.

(** An operation that validates its arguments, issues one request and
    handles the response. *)
Definition exchange {R} (prepared : completion request)
    (handler : response → outcome R) (res : response) : run R :=
  match prepared with
  | Abrupt e => {| sent := []; result := Threw e |}
  | Normal req => {| sent := [req]; result := handler res |}
  end.
End Transport.

(** [_.flatten]: members that are arrays are spliced in, [undefined]
    members are kept. *)
Definition flatten {A} (results : list (option (list A))) : list (option A) :=
  concat (map (fun r => match r with
                        | Some l => map Some l
                        | None => [None]
                        end) results).

(** ** lib/models/feeestimation.js *)

Module FeeEstimation.
Section FeeEstimation.
Context {J : Json}.

(** A fee estimation: [withinBlocks] and [feePerKb], the latter [None]
    when it is [NaN]. *)
Record t := {
  withinBlocks : Z;
  feePerKb : option Z
}.

(** [new FeeEstimation({withinBlocks: w, feePerKb: f})] for two numbers:
    both [$.checkArgument(_.isNumber(...))] hold of any number, [NaN]
    included, and the parameters are kept. *)
Definition new (w : Z) (f : option Z) : t :=
  {| withinBlocks := w; feePerKb := f |}.

Record tiers := {
  high : t;
  medium : t;
  low : t
}.

Definition fromBlockcypher (param : value) : completion tiers :=
  do param <- (match param with
               | Str s => JSON_parse s
               | _ => Normal param
               end);
  do h <- getProp param "high_fee_per_kb";
  do m <- getProp param "medium_fee_per_kb";
  do l <- getProp param "low_fee_per_kb";
  Normal {| high := new 0 (parseInt10 h);
            medium := new 3 (parseInt10 m);
            low := new 7 (parseInt10 l) |}.

End FeeEstimation.
End FeeEstimation.

(** ** lib/blockcypher.js *)

Module Blockcypher.
Section Blockcypher.
Context {J : Json} {B : Bitcore}.

Definition OPTS : string := "?unspentOnly=true&includeScript=true".

(** [this.token], [this.url], [this.network] *)
Record t := {
  token : value;
  url : argument;
  network : Network
}.

(** The constructor once one of [url] and [network] is given. *)
Definition init (token : value) (url network : argument) : t :=
  let '(url, network) :=
    match Networks_get url with
    | Some n =>
        (AValue (Str ("https://api.blockcypher.com/v1/btc/" +:+
                      (if decide (n = Networks_livenet) then "main" else "test3"))),
         ANetwork n)
    | None => (url, network)
    end in
  {| token := token;
     url := url;
     network := default Networks_defaultNetwork (Networks_get network) |}.

(** [new Blockcypher(token, url, network)] *)
Definition new (token : value) (url network : argument) : t :=
  if negb (truthyArg url) && negb (truthyArg network)
  then init token (ANetwork Networks_defaultNetwork) (AValue Undefined)
  else init token url network.

(** [requestGet(path, callback)] and [requestPost(path, data, callback)]
    with a function as callback: both preconditions are checked, then the
    request is handed to the transport. *)
Definition requestGet (self : t) (path : value) : completion request :=
  do _ <- checkArgument (isString path);
  do _ <- checkArgument (isFunction AFunction);
  Normal {| req_method := GET; req_base := url self; req_path := ToString path;
            req_contentType := true; req_json := NoJson |}.

Definition requestPost (self : t) (path : value) (name : string) (data : argument)
    : completion request :=
  do _ <- checkArgument (isString path);
  do _ <- checkArgument (isFunction AFunction);
  Normal {| req_method := POST; req_base := url self; req_path := ToString path;
            req_contentType := true; req_json := JsonData name data |}.

Definition getMaybeArray (array : value) : list value :=
  match array with
  | Arr items => items
  | _ => []
  end.

Definition blockcypherToBitcoreOutputFormat (output : value) : completion outputFormat :=
  do tx_hash <- getProp output "tx_hash";
  do tx_output_n <- getProp output "tx_output_n";
  do value <- getProp output "value";
  do script <- getProp output "script";
  do address <- Script_toAddress script;
  Normal {| txId := tx_hash; outputIndex := tx_output_n; satoshis := value;
            script := script; address := address |}.

Definition processAddressInfoIntoOutputs (rawInfo : value) : completion (list UnspentOutput) :=
  do rawInfo <- JSON_parse (ToString rawInfo);
  do txrefs <- getProp rawInfo "txrefs";
  let txs := getMaybeArray txrefs in
  do unconfirmed_txrefs <- getProp rawInfo "unconfirmed_txrefs";
  let unconfirmed := getMaybeArray unconfirmed_txrefs in
  do formatted <- mapM blockcypherToBitcoreOutputFormat (txs ++ unconfirmed);
  mapM UnspentOutput_new formatted.

(** *** _getAddress *)

Definition getAddress_request (self : t) (address : Address) : completion request :=
  let query := OPTS +:+ (if truthy (token self)
                         then "&token=" +:+ ToString (token self) else "") in
  requestGet self (Str ("/addrs/" +:+ Address_toString address +:+ query)).

(** What the response handler of [_getAddress] does: it calls [cb] with
    an error, calls [cb] with the outputs, or lets an exception of the
    decoding escape. *)
Inductive fetched :=
  | Reports (e : errArg)
  | Delivers (outputs : list UnspentOutput)
  | Raises (e : error).

Definition getAddress_handler (res : response) : fetched :=
  if bool_decide (is_Some (err res)) || negb (statusCode res =? 200)
  then Reports (errOrValue (err res) (body res))
  else match processAddressInfoIntoOutputs (body res) with
       | Normal outputs => Delivers outputs
       | Abrupt e => Raises e
       end.

(** *** getUnspentUtxos *)

(** The [addresses] argument: one address, or an array of them. *)
Inductive addressesArg :=
  | Single (a : argument)
  | Several (items : list argument).

(** [if (!_.isArray(addresses)) addresses = [addresses]] *)
Definition toArray (addresses : addressesArg) : list argument :=
  match addresses with
  | Several items => items
  | Single (AValue (Arr items)) => map AValue items
  | Single a => [a]
  end.

(** Up to the start of the fan-out: the callback is checked, every entry
    goes through [new Address], and [async.map] starts [_getAddress] on
    each address in turn, which issues one request per address. *)
Definition getUnspentUtxos_requests (self : t) (addresses : addressesArg)
    (callback : argument) : completion (list request) :=
  do _ <- checkArgument (isFunction callback);
  do addresses <- mapM Address_new (toArray addresses);
  mapM (getAddress_request self) addresses.

(** The final callback handed to [async.map]. *)
Definition getUnspentUtxos_final (err : errArg)
    (results : list (option (list UnspentOutput)))
    : outcome (list (option UnspentOutput)) :=
  if truthyErr err then Called err None
  else Called (ErrValue Null) (Some (flatten results)).

(** The state of [async.map] while responses come in: the [results]
    array, filled by index, and the number of iteratee calls that have
    completed without an error. *)
Record mapState := {
  results : gmap nat (option (list UnspentOutput));
  completed : nat
}.

Definition resultsArray (n : nat) (results : gmap nat (option (list UnspentOutput)))
    : list (option (list UnspentOutput)) :=
  map (fun i => default None (results !! i)) (seq 0 n).

(** One iteratee callback [function (err, v) { results[index] = v;
    callback(err) }] completing successfully: the final callback runs once
    all [n] have. *)
Definition complete (n : nat) (st : mapState)
    : mapState + outcome (list (option UnspentOutput)) :=
  if (completed st =? n)%nat
  then inr (getUnspentUtxos_final (ErrValue Null) (resultsArray n (results st)))
  else inl st.

(** The response to request [i] arrives.  A truthy error goes to the final
    callback at once; a falsy one counts as a completion whose result is
    [undefined]. *)
Definition arrive (n : nat) (st : mapState) (i : nat) (res : response)
    : mapState + outcome (list (option UnspentOutput)) :=
  match getAddress_handler res with
  | Raises e => inr (Threw e)
  | Reports e =>
      let results := <[i := None]> (results st) in
      if truthyErr e
      then inr (getUnspentUtxos_final e (resultsArray n results))
      else complete n {| results := results; completed := S (completed st) |}
  | Delivers outputs =>
      complete n {| results := <[i := Some outputs]> (results st);
                    completed := S (completed st) |}
  end.

(** The responses arrive in the order [arrival], a list of request
    indexes; the run ends with the first exception or with the call of the
    final callback, which [async.map] makes once. *)
Fixpoint asyncMap (n : nat) (responses : list response) (arrival : list nat)
    (st : mapState) : outcome (list (option UnspentOutput)) :=
  match arrival with
  | [] => Pending
  | i :: rest =>
      match responses !! i with
      | Some res =>
          match arrive n st i res with
          | inl st' => asyncMap n responses rest st'
          | inr o => o
          end
      | None => asyncMap n responses rest st
      end
  end.

Definition getUnspentUtxos (self : t) (addresses : addressesArg) (callback : argument)
    (responses : list response) (arrival : list nat)
    : run (list (option UnspentOutput)) :=
  match getUnspentUtxos_requests self addresses callback with
  | Abrupt e => {| sent := []; result := Threw e |}
  | Normal requests =>
      {| sent := requests;
         result :=
           match requests with
           | [] => getUnspentUtxos_final (ErrValue Null) []
           | _ => asyncMap (length requests) responses arrival
                    {| results := ∅; completed := 0 |}
           end |}
  end.

(** *** broadcast *)

(** [JSUtil.isHexa], which is false of anything that is no string. *)
Definition isHexa (a : argument) : bool :=
  match a with
  | AValue v => JSUtil_isHexa v
  | _ => false
  end.

Definition broadcast_request (self : t) (transaction callback : argument)
    : completion request :=
  do _ <- checkArgument (isHexa transaction || instanceofTransaction transaction);
  do _ <- checkArgument (isFunction callback);
  do transaction <- (match transaction with
                     | ATransaction tx =>
                         do hex <- Transaction_serialize tx true;
                         Normal (AValue hex)
                     | _ => Normal transaction
                     end);
  let query := if truthy (token self) then "?token=" +:+ ToString (token self) else "" in
  requestPost self (Str ("/txs/push" +:+ query)) "tx" transaction.

Definition broadcast_handler (res : response) : outcome value :=
  if bool_decide (is_Some (err res)) || negb (statusCode res =? 201)
  then
    match err res with
    | None =>
        match (do message <- getProp (body res) "error";
               do position <- indexOf message "already exists";
               Normal (message, position)) with
        | Abrupt e => Threw e
        | Normal (message, position) =>
            if -1 <? position
            then Called (ErrObject (AlreadyBroadcastedError message)) None
            else Called (errOrValue (err res) (body res)) None
        end
    | Some _ => Called (errOrValue (err res) (body res)) None
    end
  else
    if truthy (body res)
    then match (do tx <- getProp (body res) "tx"; getProp tx "hash") with
         | Normal hash => Called (ErrValue Null) (Some hash)
         | Abrupt e => Threw e
         end
    else Called (ErrValue Null) (Some Null).

Definition broadcast (self : t) (transaction callback : argument) (res : response)
    : run value :=
  exchange (broadcast_request self transaction callback) broadcast_handler res.

(** *** feeEstimation *)

(** [_.isNumber(withinBlocks) && withinBlocks >= 0] *)
Definition isNumberAtLeast0 (a : argument) : bool :=
  match a with
  | AValue (Num n) => 0 <=? n
  | _ => false
  end.

Definition parseIntArg (a : argument) : option Z :=
  match a with
  | AValue v => parseInt10 v
  | _ => None
  end.

(** [x < k] for a number [x] that may be [NaN] *)
Definition lessThan (x : option Z) (k : Z) : bool :=
  match x with
  | Some n => n <? k
  | None => false
  end.

Definition selectTier (withinBlocks : option Z) (estimation : FeeEstimation.tiers)
    : FeeEstimation.t :=
  if lessThan withinBlocks 3 then FeeEstimation.high estimation
  else if lessThan withinBlocks 7 then FeeEstimation.medium estimation
  else FeeEstimation.low estimation.

Definition feeEstimation_request (self : t) (withinBlocks callback : argument)
    : completion request :=
  do _ <- checkArgument (isFunction callback);
  do _ <- checkArgument (isNumberAtLeast0 withinBlocks);
  let query := if truthy (token self) then "?token=" +:+ ToString (token self) else "" in
  requestGet self (Str ("/" +:+ query)).

Definition feeEstimation_handler (withinBlocks : option Z) (res : response)
    : outcome FeeEstimation.t :=
  if bool_decide (is_Some (err res)) || negb (statusCode res =? 200)
  then Called (errOrValue (err res) (body res)) None
  else match FeeEstimation.fromBlockcypher (body res) with
       | Normal estimation => Called (ErrValue Null) (Some (selectTier withinBlocks estimation))
       | Abrupt SyntaxError => Called (ErrObject SyntaxError) None
       | Abrupt e => Threw e
       end.

Definition feeEstimation (self : t) (withinBlocks callback : argument) (res : response)
    : run FeeEstimation.t :=
  exchange (feeEstimation_request self withinBlocks callback)
           (feeEstimation_handler (parseIntArg withinBlocks)) res.

End Blockcypher.
End Blockcypher.

(** ** lib/smoogs.js *)

Module Smoogs.
Section Smoogs.
Context {B : Bitcore}.

(** [this.url], [this.network] *)
Record t := {
  url : argument;
  network : Network
}.

(** The constructor once one of [url] and [network] is given. *)
Definition init (url network : argument) : t :=
  let '(url, network) :=
    match Networks_get url with
    | Some n =>
        (AValue (Str ("https://smoogs.io/api/" +:+
                      (if decide (n = Networks_livenet) then "v1" else "testing") +:+
                      "/blockchain")),
         ANetwork n)
    | None => (url, network)
    end in
  {| url := url;
     network := default Networks_defaultNetwork (Networks_get network) |}.

(** [new Smoogs(url, network)] *)
Definition new (url network : argument) : t :=
  if negb (truthyArg url) && negb (truthyArg network)
  then init (ANetwork Networks_defaultNetwork) (AValue Undefined)
  else init url network.

Definition requestGet (self : t) (path : value) : completion request :=
  do _ <- checkArgument (isString path);
  do _ <- checkArgument (isFunction AFunction);
  Normal {| req_method := GET; req_base := url self; req_path := ToString path;
            req_contentType := false; req_json := JsonTrue |}.

Definition requestPost (self : t) (path : value) (name : string) (data : argument)
    : completion request :=
  do _ <- checkArgument (isString path);
  do _ <- checkArgument (isFunction AFunction);
  Normal {| req_method := POST; req_base := url self; req_path := ToString path;
            req_contentType := true; req_json := JsonData name data |}.

(** *** getTransaction *)

Definition isStringArg (a : argument) : bool :=
  match a with
  | AValue v => isString v
  | _ => false
  end.

(** [txid.length === 64], for a string *)
Definition lengthIs64 (a : argument) : bool :=
  match a with
  | AValue (Str s) => (String.length s =? 64)%nat
  | _ => false
  end.

Definition toStringArg (a : argument) : string :=
  match a with
  | AValue v => ToString v
  | _ => "[object Object]"
  end.

Definition getTransaction_request (self : t) (txid callback : argument)
    : completion request :=
  do _ <- checkArgument (isFunction callback);
  do _ <- checkArgument (isStringArg txid);
  do _ <- checkArgument (lengthIs64 txid);
  requestGet self (Str ("/tx/" +:+ toStringArg txid)).

Definition getTransaction_handler (res : response) : outcome Transaction :=
  if bool_decide (is_Some (err res)) || negb (statusCode res =? 200)
  then Called (errOrResponse res) None
  else match Transaction_new (body res) with
       | Normal tx => Called (ErrValue Null) (Some tx)
       | Abrupt e => Threw e
       end.

Definition getTransaction (self : t) (txid callback : argument) (res : response)
    : run Transaction :=
  exchange (getTransaction_request self txid callback) getTransaction_handler res.

(** *** getUnspentUtxos *)

Definition getUnspentUtxos_request (self : t) (addresses : Blockcypher.addressesArg)
    (callback : argument) : completion request :=
  do _ <- checkArgument (isFunction callback);
  do addresses <- mapM Address_new (Blockcypher.toArray addresses);
  requestGet self
    (Str ("/utxos?addresses=" +:+ joinWith "," (map Address_toString addresses))).

Fixpoint characters (s : string) : list value :=
  match s with
  | String c rest => Str (String c "") :: characters rest
  | EmptyString => []
  end.

(** lodash's [isLength]: a number that can be the length of an
    array-like. *)
Definition isLength (v : value) : bool :=
  match v with
  | Num n => (0 <=? n) && (n <=? MAX_SAFE_INTEGER)
  | _ => false
  end.

(** [collection[index]] of an object. *)
Definition element (props : list (string * value)) (index : nat) : value :=
  lookup_prop (decimal (Z.of_nat index)) props.

(** The members [_.map] visits: the elements of an array and the
    characters of a string; of an object whose [length] is a length, what
    it holds at the indexes below it ([undefined] where it holds nothing),
    after [Array(length)] has made room for the results, which throws from
    [2^32] on; of any other object the property values; nothing
    otherwise. *)
Definition members (collection : value) : completion (list value) :=
  match collection with
  | Arr items => Normal items
  | Str s => Normal (characters s)
  | Obj props =>
      match lookup_prop "length" props with
      | Num n =>
          if isLength (Num n)
          then if n <? 2 ^ 32
               then Normal (map (element props) (seq 0 (Z.to_nat n)))
               else Abrupt RangeError
          else Normal (map snd props)
      | _ => Normal (map snd props)
      end
  | _ => Normal []
  end.

(** [_.map(unspent, UnspentOutput)] *)
Definition convert (unspent : value) : completion (list UnspentOutput) :=
  do items <- members unspent;
  mapM UnspentOutput_ofValue items.

(** What the callback receives as [unspent]: the converted outputs, or
    the response body as it came when the conversion threw something that
    is no [InvalidArgument]. *)
Inductive unspent :=
  | Converted (outputs : list UnspentOutput)
  | Unconverted (body : value).

Definition getUnspentUtxos_handler (res : response) : outcome unspent :=
  if bool_decide (is_Some (err res)) || negb (statusCode res =? 200)
  then Called (errOrResponse res) None
  else match convert (body res) with
       | Normal outputs => Called (ErrValue Null) (Some (Converted outputs))
       | Abrupt InvalidArgument => Called (ErrObject InvalidArgument) None
       | Abrupt _ => Called (ErrValue Null) (Some (Unconverted (body res)))
       end.

Definition getUnspentUtxos (self : t) (addresses : Blockcypher.addressesArg)
    (callback : argument) (res : response) : run unspent :=
  exchange (getUnspentUtxos_request self addresses callback) getUnspentUtxos_handler res.

(** *** broadcast *)

Definition broadcast_request (self : t) (transaction callback : argument)
    : completion request :=
  do _ <- checkArgument (Blockcypher.isHexa transaction || instanceofTransaction transaction);
  do _ <- checkArgument (isFunction callback);
  do transaction <- (match transaction with
                     | ATransaction tx =>
                         do hex <- Transaction_serialize tx false;
                         Normal (AValue hex)
                     | _ => Normal transaction
                     end);
  requestPost self (Str "/broadcast") "rawtx" transaction.

Definition broadcast_handler (res : response) : outcome value :=
  if bool_decide (is_Some (err res)) || negb (statusCode res =? 200)
  then Called (errOrValue (err res) (body res)) None
  else if truthy (body res)
       then match getProp (body res) "txid" with
            | Normal txid => Called (ErrValue Null) (Some txid)
            | Abrupt e => Threw e
            end
       else Called (ErrValue Null) (Some Null).

Definition broadcast (self : t) (transaction callback : argument) (res : response)
    : run value :=
  exchange (broadcast_request self transaction callback) broadcast_handler res.

(** *** feeEstimation *)

(** The plain object the callback receives. *)
Record estimation := {
  withinBlocks : option Z;
  feePerKb : value
}.

Definition numberToString (x : option Z) : string :=
  match x with
  | Some n => Number_toString n
  | None => "NaN"
  end.

Definition feeEstimation_request (self : t) (withinBlocks callback : argument)
    : completion request :=
  do _ <- checkArgument (isFunction callback);
  do _ <- checkArgument (Blockcypher.isNumberAtLeast0 withinBlocks);
  let withinBlocks := Blockcypher.parseIntArg withinBlocks in
  requestGet self (Str ("/fee/" +:+ numberToString withinBlocks)).

(** In the failure branch [feePerKb], a [var] of the handler, is read
    before its assignment: it is [undefined]. *)
Definition feeEstimation_handler (withinBlocks : option Z) (res : response)
    : outcome estimation :=
  if bool_decide (is_Some (err res)) || negb (statusCode res =? 200)
  then Called (errOrValue (err res) Undefined) None
  else match getProp (body res) "feePerKb" with
       | Normal feePerKb =>
           Called (ErrValue Null)
                  (Some {| withinBlocks := withinBlocks; feePerKb := feePerKb |})
       | Abrupt e => Threw e
       end.

Definition feeEstimation (self : t) (withinBlocks callback : argument) (res : response)
    : run estimation :=
  exchange (feeEstimation_request self withinBlocks callback)
           (feeEstimation_handler (Blockcypher.parseIntArg withinBlocks)) res.

End Smoogs.
End Smoogs.

(** ** A small instance of the libraries

    A stand-in for [JSON.parse] and bitcore-lib on which the adapters can be
    run: two networks; addresses, scripts and transactions that are
    strings; an unspent output that is the triple of its transaction id,
    output index and amount. *)

Module Sample.

Inductive network := livenet | testnet.

#[global] Instance network_eq_dec : EqDecision network.
Proof. solve_decision. Defined.

Record address := {
  address_network : network;
  address_text : string
}.

Definition types : BitcoreTypes := {|
  Address := address;
  Network := network;
  Transaction := string;
  UnspentOutput := value * value * value
|}.

(** [Networks.get]: a registered network, or the network of a name or
    alias. *)
Definition get (a : @argument types) : option network :=
  match a with
  | ANetwork n => Some n
  | AValue (Str "livenet") | AValue (Str "mainnet") => Some livenet
  | AValue (Str "testnet") => Some testnet
  | _ => None
  end.

Definition isHexDigit (c : ascii) : bool :=
  let n := nat_of_ascii c in
  ((48 <=? n) && (n <=? 57) || (65 <=? n) && (n <=? 70) || (97 <=? n) && (n <=? 102))%nat.

Fixpoint allHexDigits (s : string) : bool :=
  match s with
  | String c rest => isHexDigit c && allHexDigits rest
  | EmptyString => true
  end.

(** [/^[0-9a-fA-F]+$/] on a string *)
Definition isHexa (v : value) : bool :=
  match v with
  | Str (String c rest) => allHexDigits (String c rest)
  | _ => false
  end.

(** An address in text starts with [1] on livenet and with [m] on
    testnet; an [Address] is returned as it is. *)
Definition newAddress (a : @argument types) : completion address :=
  match a with
  | AAddress x => Normal x
  | AValue (Str (String "1" rest)) =>
      Normal {| address_network := livenet; address_text := String "1" rest |}
  | AValue (Str (String "m" rest)) =>
      Normal {| address_network := testnet; address_text := String "m" rest |}
  | _ => Abrupt (CodecError "Invalid address")
  end.

(** The address a script pays to; scripts are written [pay:<address>]. *)
Definition scriptToAddress (script : value) : completion address :=
  match script with
  | Str (String "p" (String "a" (String "y" (String ":" text)))) =>
      newAddress (AValue (Str text))
  | _ => Abrupt (CodecError "Invalid script")
  end.

Definition newUnspentOutput (o : @outputFormat types) : completion (value * value * value) :=
  if isHexa (txId o) && isNumber (outputIndex o) && isNumber (satoshis o)
  then Normal (txId o, outputIndex o, satoshis o)
  else Abrupt (CodecError "Invalid unspent output").

Definition unspentOutputOfValue (v : value) : completion (value * value * value) :=
  match v with
  | Obj props =>
      let txid := lookup_prop "txid" props in
      let vout := lookup_prop "vout" props in
      let amount := lookup_prop "satoshis" props in
      if isHexa txid && isNumber vout
      then (if isNumber amount then Normal (txid, vout, amount) else Abrupt InvalidArgument)
      else Abrupt (CodecError "Invalid unspent output")
  | _ => Abrupt InvalidArgument
  end.

Definition newTransaction (v : value) : completion string :=
  match v with
  | Str s => if isHexa v then Normal s else Abrupt (CodecError "Invalid transaction")
  | _ => Abrupt (CodecError "Invalid transaction")
  end.

Definition bitcore : Bitcore := {|
  Bitcore_types := types;
  Networks_get := get;
  Networks_livenet := livenet;
  Networks_defaultNetwork := livenet;
  JSUtil_isHexa := isHexa;
  Address_new := newAddress;
  Address_toString := address_text;
  Script_toAddress := scriptToAddress;
  UnspentOutput_new := newUnspentOutput;
  UnspentOutput_ofValue := unspentOutputOfValue;
  UnspentOutput_txId := fun u => u.1.1;
  UnspentOutput_outputIndex := fun u => u.1.2;
  Transaction_new := newTransaction;
  Transaction_serialize := fun tx _ => Normal (Str tx)
|}.

(** *** A JSON parser

    For documents whose strings have no escapes and whose numbers are
    integers; any other text is a syntax error.  Properties are listed in
    the order of the text, which is the order in which they are enumerated
    when no property name is an array index. *)

Definition doubleQuote : ascii := ascii_of_nat 34.

(** Writes a JSON text from one typed with apostrophes for the quotes. *)
Fixpoint quoted (s : string) : string :=
  match s with
  | String c rest => String (if Ascii.eqb c "'" then doubleQuote else c) (quoted rest)
  | EmptyString => EmptyString
  end.

(** The characters up to the closing quote, and what follows it. *)
Fixpoint stringBody (s : string) : option (string * string) :=
  match s with
  | String c rest =>
      if Ascii.eqb c doubleQuote then Some ("", rest)
      else if Ascii.eqb c "\" then None
      else '(text, rest') ← stringBody rest; Some (String c text, rest')
  | EmptyString => None
  end.

Fixpoint dropDigits (s : string) : string :=
  match s with
  | String c rest =>
      match digit c with
      | Some _ => dropDigits rest
      | None => s
      end
  | EmptyString => s
  end.

Fixpoint setProp (k : string) (v : value) (props : list (string * value))
    : list (string * value) :=
  match props with
  | [] => [(k, v)]
  | (k', v') :: rest =>
      if String.eqb k k' then (k, v) :: rest else (k', v') :: setProp k v rest
  end.

Inductive expecting :=
  | AValueOf
  | ElementsOf (items : list value)
  | MembersOf (props : list (string * value)).

Fixpoint parseJson (fuel : nat) (e : expecting) (s : string) : option (value * string) :=
  match fuel with
  | O => None
  | S fuel =>
      match e, skipWhiteSpace s with
      | AValueOf, String "n" (String "u" (String "l" (String "l" rest))) =>
          Some (Null, rest)
      | AValueOf, String "t" (String "r" (String "u" (String "e" rest))) =>
          Some (Bool true, rest)
      | AValueOf, String "f" (String "a" (String "l" (String "s" (String "e" rest)))) =>
          Some (Bool false, rest)
      | AValueOf, String "[" rest =>
          match skipWhiteSpace rest with
          | String "]" rest' => Some (Arr [], rest')
          | _ => parseJson fuel (ElementsOf []) rest
          end
      | AValueOf, String "{" rest =>
          match skipWhiteSpace rest with
          | String "}" rest' => Some (Obj [], rest')
          | _ => parseJson fuel (MembersOf []) rest
          end
      | AValueOf, String "-" rest =>
          n ← digitsValue rest; Some (Num (- n), dropDigits rest)
      | AValueOf, String c rest =>
          if Ascii.eqb c doubleQuote
          then '(text, rest') ← stringBody rest; Some (Str text, rest')
          else n ← digitsValue (String c rest); Some (Num n, dropDigits rest)
      | AValueOf, EmptyString => None
      | ElementsOf items, rest =>
          '(v, rest') ← parseJson fuel AValueOf rest;
          match skipWhiteSpace rest' with
          | String "," rest'' => parseJson fuel (ElementsOf (items ++ [v])) rest''
          | String "]" rest'' => Some (Arr (items ++ [v]), rest'')
          | _ => None
          end
      | MembersOf props, String c rest =>
          if Ascii.eqb c doubleQuote
          then
            '(k, rest') ← stringBody rest;
            match skipWhiteSpace rest' with
            | String ":" rest'' =>
                '(v, rest3) ← parseJson fuel AValueOf rest'';
                match skipWhiteSpace rest3 with
                | String "," rest4 => parseJson fuel (MembersOf (setProp k v props)) rest4
                | String "}" rest4 => Some (Obj (setProp k v props), rest4)
                | _ => None
                end
            | _ => None
            end
          else None
      | MembersOf _, EmptyString => None
      end
  end.

Definition parse (text : string) : completion value :=
  match parseJson (2 * String.length text + 2) AValueOf text with
  | Some (v, rest) =>
      match skipWhiteSpace rest with
      | EmptyString => Normal v
      | _ => Abrupt SyntaxError
      end
  | None => Abrupt SyntaxError
  end.

Definition json : Json := {| JSON_parse := parse |}.

(** *** Response bodies *)

Definition txid1 : string :=
  "a1b2c3d4e5f60718293a4b5c6d7e8f90a1b2c3d4e5f60718293a4b5c6d7e8f90".

(** An address document in which the provider lists one output both as
    confirmed and as unconfirmed. *)
Definition overlappingText : string :=
  quoted "{'address':'1Owner','txrefs':[{'tx_hash':'a1b2c3d4e5f60718293a4b5c6d7e8f90a1b2c3d4e5f60718293a4b5c6d7e8f90','tx_output_n':0,'value':50000,'confirmations':1,'script':'pay:1Owner'}],'unconfirmed_txrefs':[{'tx_hash':'a1b2c3d4e5f60718293a4b5c6d7e8f90a1b2c3d4e5f60718293a4b5c6d7e8f90','tx_output_n':0,'value':50000,'confirmations':0,'script':'pay:1Owner'}]}".

(** An address document with one confirmed output. *)
Definition addressText : string :=
  quoted "{'address':'1Owner','txrefs':[{'tx_hash':'a1b2c3d4e5f60718293a4b5c6d7e8f90a1b2c3d4e5f60718293a4b5c6d7e8f90','tx_output_n':1,'value':7000,'script':'pay:1Owner'}]}".

(** The chain document, with its three fee rates. *)
Definition chainText : string :=
  quoted "{'name':'BTC.main','height':360060,'high_fee_per_kb':30000,'medium_fee_per_kb':20000,'low_fee_per_kb':10000}".

Definition ok (text : string) : response :=
  {| err := None; statusCode := 200; body := Str text |}.

(** A failure reported by the provider, with its status and body. *)
Definition failed (status : Z) (text : string) : response :=
  {| err := None; statusCode := status; body := Str text |}.

(** An address of testnet, as an [Address]. *)
Definition testnetOwner : @argument types :=
  @AAddress types {| address_network := testnet; address_text := "mOwner" |}.

(** The adapters for livenet, the first with a token. *)
Definition blockcypher : @Blockcypher.t bitcore :=
  Blockcypher.new (B := bitcore) (Str "secret") (AValue (Str "livenet")) (AValue Undefined).

Definition smoogs : @Smoogs.t bitcore :=
  Smoogs.new (B := bitcore) (AValue (Str "livenet")) (AValue Undefined).

End Sample.

(** ** Notions the properties are stated with *)

(** [pattern] occurs in [s]. *)
Definition contains (pattern s : string) : Prop :=
  ∃ before after, s = before +:+ pattern +:+ after.

(** The endpoints the providers document for a network: the main chain
    for livenet, the test chain otherwise. *)
Definition blockcypherEndpoint {B : Bitcore} (n : Network) : string :=
  if decide (n = Networks_livenet)
  then "https://api.blockcypher.com/v1/btc/main"
  else "https://api.blockcypher.com/v1/btc/test3".

Definition smoogsEndpoint {B : Bitcore} (n : Network) : string :=
  if decide (n = Networks_livenet)
  then "https://smoogs.io/api/v1/blockchain"
  else "https://smoogs.io/api/testing/blockchain".

(** The pair that identifies an output, as a provider reference gives it
    and as an unspent output holds it. *)
Definition propertyOf (v : value) (k : string) : value :=
  match getProp v k with
  | Normal x => x
  | Abrupt _ => Undefined
  end.

Definition referenceKey (reference : value) : value * value :=
  (propertyOf reference "tx_hash", propertyOf reference "tx_output_n").

Definition outputKey {B : Bitcore} (u : UnspentOutput) : value * value :=
  (UnspentOutput_txId u, UnspentOutput_outputIndex u).

(** An unspent output holds the transaction id and the output index it
    was built from. *)
Definition keepsKey {B : Bitcore} : Prop :=
  ∀ o u, UnspentOutput_new o = Normal u →
         outputKey u = (txId o, outputIndex o).

(** How one per-address fetch of [Blockcypher.getUnspentUtxos] fails: its
    handler reports an error that the error-first convention takes for
    one, or an exception escapes from it. *)
Inductive failure :=
  | Reported (e : errArg)
  | Escaped (e : error).

Definition fetchFailure {J : Json} {B : Bitcore} (res : response) : option failure :=
  match Blockcypher.getAddress_handler res with
  | Blockcypher.Reports e => if truthyErr e then Some (Reported e) else None
  | Blockcypher.Raises e => Some (Escaped e)
  | Blockcypher.Delivers _ => None
  end.

(** What a fetch that does not fail leaves in the [results] array of
    [async.map]: the outputs, or [undefined] after a report that is no
    error. *)
Definition slot {J : Json} {B : Bitcore} (res : response) : option (list UnspentOutput) :=
  match Blockcypher.getAddress_handler res with
  | Blockcypher.Delivers outputs => Some outputs
  | _ => None
  end.

(** The fetch of index [i] fails. *)
Definition fails {J : Json} {B : Bitcore} (responses : list response) (i : nat) : Prop :=
  ∃ res f, responses !! i = Some res ∧ fetchFailure res = Some f.

(** The end of a call that fails with [f]: no result is handed over. *)
Definition failsWith {R} (f : failure) : outcome R :=
  match f with
  | Reported e => Called e None
  | Escaped e => Threw e
  end.

(** The requests of the operations, written out. *)
Definition tokenQuery {B : Bitcore} (self : Blockcypher.t) (separator : string) : string :=
  if truthy (Blockcypher.token self)
  then separator +:+ "token=" +:+ ToString (Blockcypher.token self)
  else "".

Definition addressRequest {B : Bitcore} (self : Blockcypher.t) (a : Address) : request :=
  {| req_method := GET;
     req_base := Blockcypher.url self;
     req_path := "/addrs/" +:+ Address_toString a +:+
                 "?unspentOnly=true&includeScript=true" +:+ tokenQuery self "&";
     req_contentType := true;
     req_json := NoJson |}.

Definition utxosRequest {B : Bitcore} (self : Smoogs.t) (addresses : list Address) : request :=
  {| req_method := GET;
     req_base := Smoogs.url self;
     req_path := "/utxos?addresses=" +:+ joinWith "," (map Address_toString addresses);
     req_contentType := false;
     req_json := JsonTrue |}.

Definition pushRequest {B : Bitcore} (self : Blockcypher.t) (transaction : argument) : request :=
  {| req_method := POST;
     req_base := Blockcypher.url self;
     req_path := "/txs/push" +:+ tokenQuery self "?";
     req_contentType := true;
     req_json := JsonData "tx" transaction |}.

Definition rawtxRequest {B : Bitcore} (self : Smoogs.t) (transaction : argument) : request :=
  {| req_method := POST;
     req_base := Smoogs.url self;
     req_path := "/broadcast";
     req_contentType := true;
     req_json := JsonData "rawtx" transaction |}.

Definition feeRequest {B : Bitcore} (self : Smoogs.t) (withinBlocks : Z) : request :=
  {| req_method := GET;
     req_base := Smoogs.url self;
     req_path := "/fee/" +:+ Number_toString withinBlocks;
     req_contentType := false;
     req_json := JsonTrue |}.

Definition txRequest {B : Bitcore} (self : Smoogs.t) (txid : string) : request :=
  {| req_method := GET;
     req_base := Smoogs.url self;
     req_path := "/tx/" +:+ txid;
     req_contentType := false;
     req_json := JsonTrue |}.

(** * Properties *)

(** ** Built-in operations *)

Section Builtins.

Lemma leadingDigits_string_of_uint (u : Decimal.uint) :
  leadingDigits (NilEmpty.string_of_uint u) = u.
Proof. induction u; simpl; congruence. Qed.

(** Up to [MAX_SAFE_INTEGER] a non-negative integer prints in full. *)
Lemma Number_toString_safe (n : Z) :
  0 ≤ n ≤ MAX_SAFE_INTEGER → Number_toString n = decimal n.
Proof.
  intros [Hlow Hhigh].
  assert (Hfull : unsignedToString n = decimal n).
  { unfold unsignedToString.
    destruct (Z.leb_spec0 n MAX_SAFE_INTEGER) as [_ | Hn]; [reflexivity | contradiction]. }
  destruct n as [| p | p]; [exact Hfull | exact Hfull | lia].
Qed.

(** [parseInt] reads the numeral of a non-negative integer up to
    [MAX_SAFE_INTEGER] back. *)
Lemma parseInt10_Num (n : Z) :
  0 ≤ n ≤ MAX_SAFE_INTEGER → parseInt10 (Num n) = Some n.
Proof.
  intros Hsafe. assert (Hn : 0 ≤ n) by apply Hsafe.
  unfold parseInt10, ToString. rewrite (Number_toString_safe n Hsafe).
  unfold decimal.
  assert (Hshape : ∃ u, N.to_uint (Z.to_N n) = u ∧ u ≠ Decimal.Nil).
  { eexists; split; [reflexivity |].
    destruct (Z.to_N n) as [| p]; [discriminate |].
    apply DecimalPos.Unsigned.to_uint_nonnil. }
  destruct Hshape as (u & Hu & Hnil).
  assert (Hvalue : Z.of_N (N.of_uint u) = n).
  { rewrite <- Hu, DecimalN.Unsigned.of_to. lia. }
  assert (Hread : digitsValue (NilEmpty.string_of_uint u) = Some n).
  { unfold digitsValue. rewrite leadingDigits_string_of_uint.
    destruct u; congruence. }
  rewrite Hu. destruct u; try congruence; exact Hread.
Qed.

Lemma substring_append (before pattern after : string) :
  String.substring (String.length before) (String.length pattern)
                   (before +:+ pattern +:+ after) = pattern.
Proof.
  induction before as [| c before IH]; simpl; [| exact IH].
  induction pattern as [| c pattern IH]; simpl.
  - destruct after; reflexivity.
  - f_equal. exact IH.
Qed.

(** [indexOf] finds every pattern that occurs. *)
Lemma stringIndexOf_contains (pattern s : string) :
  pattern ≠ "" → contains pattern s → -1 < stringIndexOf s pattern.
Proof.
  intros Hne (before & after & ->). unfold stringIndexOf.
  destruct (String.index 0 pattern _) as [i |] eqn:Hindex; [lia |].
  exfalso.
  apply (String.index_correct3 0 (String.length before)) in Hindex;
    [| exact Hne | apply Nat.le_0_l].
  apply Hindex, substring_append.
Qed.

Lemma substring_prefix (pattern s : string) :
  String.substring 0 (String.length pattern) s = pattern →
  ∃ after, s = pattern +:+ after.
Proof.
  revert s. induction pattern as [| c pattern IH]; intros s Hs.
  - exists s. reflexivity.
  - destruct s as [| c' s]; [discriminate |].
    simpl in Hs. injection Hs as -> Hs.
    destruct (IH s Hs) as (after & ->). exists after. reflexivity.
Qed.

Lemma substring_contains (i : nat) (pattern s : string) :
  String.substring i (String.length pattern) s = pattern → contains pattern s.
Proof.
  revert s. induction i as [| i IH]; intros s Hs.
  - destruct (substring_prefix pattern s Hs) as (after & ->).
    exists "", after. reflexivity.
  - destruct s as [| c s].
    + exists "", "". rewrite <- Hs. destruct (String.length pattern); reflexivity.
    + destruct (IH s Hs) as (before & after & ->).
      exists (String c before), after. reflexivity.
Qed.

(** ... and nothing else. *)
Lemma stringIndexOf_found (pattern s : string) :
  -1 < stringIndexOf s pattern → contains pattern s.
Proof.
  unfold stringIndexOf.
  destruct (String.index 0 pattern s) as [i |] eqn:Hindex; [intros _ | lia].
  apply String.index_correct1 in Hindex.
  exact (substring_contains i pattern s Hindex).
Qed.

End Builtins.

(** ** Broadcast *)

Section Broadcast.
Context {B : Bitcore}.

(** C1.  A broadcast on Blockcypher whose request was sent and whose
    response carries no transport error, a status other than 201 and a
    body whose [error] is a string in which "already exists" occurs ends
    with the callback receiving an [AlreadyBroadcastedError] built from
    that string, and nothing else. *)
Theorem Blockcypher_broadcast_already_broadcast
    (self : Blockcypher.t) (transaction callback : argument) (req : request)
    (res : response) (message : string) :
  Blockcypher.broadcast_request self transaction callback = Normal req →
  err res = None →
  statusCode res ≠ 201 →
  getProp (body res) "error" = Normal (Str message) →
  contains "already exists" message →
  Blockcypher.broadcast self transaction callback res =
    {| sent := [req];
       result := Called (ErrObject (AlreadyBroadcastedError (Str message))) None |}.
Proof.
  intros Hreq Herr Hstatus Hprop Hcontains.
  unfold Blockcypher.broadcast, exchange. rewrite Hreq. f_equal.
  unfold Blockcypher.broadcast_handler. rewrite Herr, Hprop. simpl.
  assert (Hfailed : negb (statusCode res =? 201) = true)
    by (apply negb_true_iff, Z.eqb_neq, Hstatus).
  rewrite Hfailed. simpl.
  assert (Hfound : (-1 <? stringIndexOf message "already exists") = true).
  { apply Z.ltb_lt, stringIndexOf_contains; [discriminate | exact Hcontains]. }
  rewrite Hfound. reflexivity.
Qed.

(** X21.  Any other non-201 response whose [error] is a string goes to the
    callback as it came: the body is the error. *)
Lemma Blockcypher_broadcast_other_error
    (self : Blockcypher.t) (transaction callback : argument) (req : request)
    (res : response) (message : string) :
  Blockcypher.broadcast_request self transaction callback = Normal req →
  err res = None →
  statusCode res ≠ 201 →
  getProp (body res) "error" = Normal (Str message) →
  ¬ contains "already exists" message →
  Blockcypher.broadcast self transaction callback res =
    {| sent := [req]; result := Called (ErrValue (body res)) None |}.
Proof.
  intros Hreq Herr Hstatus Hprop Hcontains.
  unfold Blockcypher.broadcast, exchange. rewrite Hreq. f_equal.
  unfold Blockcypher.broadcast_handler. rewrite Herr, Hprop. simpl.
  assert (Hfailed : negb (statusCode res =? 201) = true)
    by (apply negb_true_iff, Z.eqb_neq, Hstatus).
  rewrite Hfailed. simpl.
  destruct (-1 <? stringIndexOf message "already exists") eqn:Hfound; [| reflexivity].
  exfalso. apply Hcontains, stringIndexOf_found, Z.ltb_lt, Hfound.
Qed.

(** C6.  A broadcast, on either adapter, of something that is neither
    hexadecimal text nor a [Transaction] throws [InvalidArgument] and
    issues no request. *)
Theorem broadcast_rejects_invalid_transaction
    (blockcypher : Blockcypher.t) (smoogs : Smoogs.t)
    (transaction callback : argument) (res : response) :
  Blockcypher.isHexa transaction = false →
  instanceofTransaction transaction = false →
  Blockcypher.broadcast blockcypher transaction callback res =
    {| sent := []; result := Threw InvalidArgument |}
  ∧ Smoogs.broadcast smoogs transaction callback res =
    {| sent := []; result := Threw InvalidArgument |}.
Proof.
  intros Hhexa Hinstance.
  unfold Blockcypher.broadcast, Smoogs.broadcast, exchange,
    Blockcypher.broadcast_request, Smoogs.broadcast_request.
  rewrite Hhexa, Hinstance. split; reflexivity.
Qed.

End Broadcast.

Lemma Blockcypher_broadcast_already_broadcast_witness :
  Blockcypher.broadcast Sample.blockcypher (AValue (Str "0100beef")) AFunction
    {| err := None; statusCode := 400;
       body := Obj [("error", Str "Error validating transaction: Transaction with hash a1b2 already exists.")] |}
  = {| sent := [ {| req_method := POST;
                    req_base := AValue (Str "https://api.blockcypher.com/v1/btc/main");
                    req_path := "/txs/push?token=secret";
                    req_contentType := true;
                    req_json := JsonData "tx" (AValue (Str "0100beef")) |} ];
       result := Called (ErrObject (AlreadyBroadcastedError
                   (Str "Error validating transaction: Transaction with hash a1b2 already exists."))) None |}.
Proof.
  apply (Blockcypher_broadcast_already_broadcast (B := Sample.bitcore));
    [reflexivity | reflexivity | simpl; lia | reflexivity |].
  exists "Error validating transaction: Transaction with hash a1b2 ", ".".
  reflexivity.
Defined.

Lemma broadcast_rejects_invalid_transaction_witness :
  Blockcypher.broadcast Sample.blockcypher (AValue (Str "not a transaction")) AFunction
    (Sample.ok "")
  = {| sent := []; result := Threw InvalidArgument |}
  ∧ Smoogs.broadcast Sample.smoogs (AValue (Str "not a transaction")) AFunction
      (Sample.ok "")
  = {| sent := []; result := Threw InvalidArgument |}.
Proof.
  apply (broadcast_rejects_invalid_transaction (B := Sample.bitcore));
    reflexivity.
Defined.

(** ** Fee estimation *)

Section FeeEstimation.
Context {J : Json} {B : Bitcore}.

(** The three tiers of a chain document are the estimates for 0, 3 and 7
    blocks. *)
Lemma fromBlockcypher_withinBlocks (param : value) (estimation : FeeEstimation.tiers) :
  FeeEstimation.fromBlockcypher param = Normal estimation →
  FeeEstimation.withinBlocks (FeeEstimation.high estimation) = 0
  ∧ FeeEstimation.withinBlocks (FeeEstimation.medium estimation) = 3
  ∧ FeeEstimation.withinBlocks (FeeEstimation.low estimation) = 7.
Proof.
  unfold FeeEstimation.fromBlockcypher, bind. intros Hparam.
  repeat match type of Hparam with
         | match ?m with _ => _ end = _ => destruct m; try discriminate
         end.
  injection Hparam as <-. repeat split.
Qed.

Lemma selectTier_thresholds (n : Z) (estimation : FeeEstimation.tiers) :
  Blockcypher.selectTier (Some n) estimation =
    if n <? 3 then FeeEstimation.high estimation
    else if n <? 7 then FeeEstimation.medium estimation
    else FeeEstimation.low estimation.
Proof. reflexivity. Qed.

(** X22.  A fee estimation on Blockcypher for an integer target [N] from
    0 to [MAX_SAFE_INTEGER], answered with status 200 and a chain document,
    hands the callback the [high] estimate (0 blocks) when [N < 3], the
    [medium] one (3 blocks) when [3 ≤ N < 7] and the [low] one (7 blocks)
    when [7 ≤ N]. *)
Theorem Blockcypher_feeEstimation_tier
    (self : Blockcypher.t) (N : Z) (callback : argument) (res : response)
    (estimation : FeeEstimation.tiers) :
  0 ≤ N ≤ MAX_SAFE_INTEGER →
  isFunction callback = true →
  err res = None →
  statusCode res = 200 →
  FeeEstimation.fromBlockcypher (body res) = Normal estimation →
  let selected := result (Blockcypher.feeEstimation self (AValue (Num N)) callback res) in
  (N < 3 → selected = Called (ErrValue Null) (Some (FeeEstimation.high estimation)))
  ∧ (3 ≤ N < 7 → selected = Called (ErrValue Null) (Some (FeeEstimation.medium estimation)))
  ∧ (7 ≤ N → selected = Called (ErrValue Null) (Some (FeeEstimation.low estimation)))
  ∧ FeeEstimation.withinBlocks (FeeEstimation.high estimation) = 0
  ∧ FeeEstimation.withinBlocks (FeeEstimation.medium estimation) = 3
  ∧ FeeEstimation.withinBlocks (FeeEstimation.low estimation) = 7.
Proof.
  intros Hsafe Hcallback Herr Hstatus Hbody selected.
  assert (Hlow : 0 ≤ N) by apply Hsafe.
  assert (Hselected : selected = Called (ErrValue Null)
            (Some (if N <? 3 then FeeEstimation.high estimation
                   else if N <? 7 then FeeEstimation.medium estimation
                   else FeeEstimation.low estimation))).
  { subst selected.
    unfold Blockcypher.feeEstimation, exchange, Blockcypher.feeEstimation_request.
    rewrite Hcallback. simpl.
    assert (Hcheck : (0 <=? N) = true) by (apply Z.leb_le, Hlow).
    rewrite Hcheck. simpl.
    unfold Blockcypher.feeEstimation_handler.
    rewrite Herr, Hstatus, Hbody. simpl.
    rewrite (parseInt10_Num N Hsafe), selectTier_thresholds. reflexivity. }
  rewrite Hselected.
  split; [| split; [| split]].
  - intros H. assert (Hlt : (N <? 3) = true) by (apply Z.ltb_lt, H).
    rewrite Hlt. reflexivity.
  - intros [H3 H7].
    assert (Hge : (N <? 3) = false) by (apply Z.ltb_ge, H3).
    assert (Hlt : (N <? 7) = true) by (apply Z.ltb_lt, H7).
    rewrite Hge, Hlt. reflexivity.
  - intros H.
    assert (Hge3 : (N <? 3) = false) by (apply Z.ltb_ge; lia).
    assert (Hge7 : (N <? 7) = false) by (apply Z.ltb_ge, H).
    rewrite Hge3, Hge7. reflexivity.
  - exact (fromBlockcypher_withinBlocks _ _ Hbody).
Qed.

(** A negative target is refused before any request. *)
Lemma Blockcypher_feeEstimation_negative
    (self : Blockcypher.t) (N : Z) (callback : argument) (res : response) :
  N < 0 →
  Blockcypher.feeEstimation self (AValue (Num N)) callback res =
    {| sent := []; result := Threw InvalidArgument |}.
Proof.
  intros HN.
  unfold Blockcypher.feeEstimation, exchange, Blockcypher.feeEstimation_request.
  destruct (isFunction callback); simpl; [| reflexivity].
  assert (Hcheck : (0 <=? N) = false) by (apply Z.leb_gt, HN).
  rewrite Hcheck. reflexivity.
Qed.

End FeeEstimation.

Lemma Blockcypher_feeEstimation_tier_witness :
  let selected (N : Z) :=
    result (Blockcypher.feeEstimation (J := Sample.json) Sample.blockcypher
              (AValue (Num N)) AFunction (Sample.ok Sample.chainText)) in
  selected 2 = Called (ErrValue Null) (Some (FeeEstimation.new 0 (Some 30000)))
  ∧ selected 3 = Called (ErrValue Null) (Some (FeeEstimation.new 3 (Some 20000)))
  ∧ selected 6 = Called (ErrValue Null) (Some (FeeEstimation.new 3 (Some 20000)))
  ∧ selected 7 = Called (ErrValue Null) (Some (FeeEstimation.new 7 (Some 10000))).
Proof.
  pose (tier N (bound : 0 ≤ N ≤ MAX_SAFE_INTEGER) :=
    Blockcypher_feeEstimation_tier (J := Sample.json) (B := Sample.bitcore)
      Sample.blockcypher N AFunction (Sample.ok Sample.chainText)
      {| FeeEstimation.high := FeeEstimation.new 0 (Some 30000);
         FeeEstimation.medium := FeeEstimation.new 3 (Some 20000);
         FeeEstimation.low := FeeEstimation.new 7 (Some 10000) |}
      bound eq_refl eq_refl eq_refl eq_refl).
  intros selected. unfold MAX_SAFE_INTEGER in tier.
  split; [| split; [| split]].
  - apply (tier 2); lia.
  - apply (tier 3); lia.
  - apply (tier 6); lia.
  - apply (tier 7); lia.
Defined.

(** C2.  The thresholds are applied to what [parseInt] reads in the
    target's numeral, and a Number from [10^21] on prints in exponent
    notation: [parseInt(1e21, 10)] is 1.  So a target of [10^21] blocks,
    which is not below 7, is answered with the [high] estimate, the one for
    0 blocks, and not with the [low] one. *)
Theorem Blockcypher_feeEstimation_exponent_target :
  7 ≤ 10 ^ 21
  ∧ Number_toString (10 ^ 21) = "1e+21"
  ∧ parseInt10 (Num (10 ^ 21)) = Some 1
  ∧ result (Blockcypher.feeEstimation (J := Sample.json) Sample.blockcypher
              (AValue (Num (10 ^ 21))) AFunction (Sample.ok Sample.chainText))
    = Called (ErrValue Null) (Some (FeeEstimation.new 0 (Some 30000)))
  ∧ result (Blockcypher.feeEstimation (J := Sample.json) Sample.blockcypher
              (AValue (Num 7)) AFunction (Sample.ok Sample.chainText))
    = Called (ErrValue Null) (Some (FeeEstimation.new 7 (Some 10000))).
Proof. repeat split; vm_compute; congruence. Qed.

(** ** Smoogs: transactions and fees *)

Section SmoogsProperties.
Context {B : Bitcore}.

(** C8.  [getTransaction] with an id that is not a string of exactly 64
    characters throws [InvalidArgument] and issues no request. *)
Theorem Smoogs_getTransaction_rejects_length
    (self : Smoogs.t) (txid callback : argument) (res : response) :
  (∀ s, txid = AValue (Str s) → String.length s ≠ 64%nat) →
  Smoogs.getTransaction self txid callback res =
    {| sent := []; result := Threw InvalidArgument |}.
Proof.
  intros Htxid.
  unfold Smoogs.getTransaction, exchange, Smoogs.getTransaction_request.
  destruct (isFunction callback); simpl; [| reflexivity].
  destruct txid as [v | | | |]; try reflexivity.
  destruct v; try reflexivity. simpl.
  assert (Hlength : (String.length s =? 64)%nat = false)
    by (apply Nat.eqb_neq, Htxid; reflexivity).
  rewrite Hlength. reflexivity.
Qed.

(** Any string of 64 characters is taken for an id: the request is
    issued. *)
Lemma Smoogs_getTransaction_accepts_length
    (self : Smoogs.t) (s : string) (res : response) :
  String.length s = 64%nat →
  Smoogs.getTransaction self (AValue (Str s)) AFunction res =
    {| sent := [ {| req_method := GET; req_base := Smoogs.url self;
                    req_path := "/tx/" +:+ s; req_contentType := false;
                    req_json := JsonTrue |} ];
       result := Smoogs.getTransaction_handler res |}.
Proof.
  intros Hlength.
  unfold Smoogs.getTransaction, exchange, Smoogs.getTransaction_request.
  simpl. rewrite Hlength. reflexivity.
Qed.

(** A fee estimation that the provider answers with a status other than
    200 ends with the callback receiving [undefined] alone. *)
Lemma Smoogs_feeEstimation_status
    (self : Smoogs.t) (withinBlocks callback : argument) (req : request)
    (res : response) :
  Smoogs.feeEstimation_request self withinBlocks callback = Normal req →
  err res = None →
  statusCode res ≠ 200 →
  Smoogs.feeEstimation self withinBlocks callback res =
    {| sent := [req]; result := Called (ErrValue Undefined) None |}.
Proof.
  intros Hreq Herr Hstatus.
  unfold Smoogs.feeEstimation, exchange. rewrite Hreq. f_equal.
  unfold Smoogs.feeEstimation_handler. rewrite Herr. simpl.
  assert (Hfailed : negb (statusCode res =? 200) = true)
    by (apply negb_true_iff, Z.eqb_neq, Hstatus).
  rewrite Hfailed. reflexivity.
Qed.

(** The sibling operations hand the body over in that case. *)
Lemma Smoogs_broadcast_status
    (self : Smoogs.t) (transaction callback : argument) (req : request)
    (res : response) :
  Smoogs.broadcast_request self transaction callback = Normal req →
  err res = None →
  statusCode res ≠ 200 →
  Smoogs.broadcast self transaction callback res =
    {| sent := [req]; result := Called (ErrValue (body res)) None |}.
Proof.
  intros Hreq Herr Hstatus.
  unfold Smoogs.broadcast, exchange. rewrite Hreq. f_equal.
  unfold Smoogs.broadcast_handler. rewrite Herr. simpl.
  assert (Hfailed : negb (statusCode res =? 200) = true)
    by (apply negb_true_iff, Z.eqb_neq, Hstatus).
  rewrite Hfailed. reflexivity.
Qed.

(** X19.  When [_.map(unspent, UnspentOutput)] throws anything but an
    [InvalidArgument], be it from [UnspentOutput] on one of the members
    [_.map] visits or from [_.map] itself, the exception is dropped in the
    [catch], and the callback receives the body as it came. *)
Lemma Smoogs_getUnspentUtxos_conversion_error (res : response) (e : error) :
  err res = None →
  statusCode res = 200 →
  Smoogs.convert (body res) = Abrupt e →
  e ≠ InvalidArgument →
  Smoogs.getUnspentUtxos_handler res =
    Called (ErrValue Null) (Some (Smoogs.Unconverted (body res))).
Proof.
  intros Herr Hstatus Hconversion He.
  unfold Smoogs.getUnspentUtxos_handler.
  rewrite Herr, Hstatus, Hconversion. simpl.
  destruct e; try reflexivity. contradiction.
Qed.

End SmoogsProperties.

Lemma Smoogs_getTransaction_rejects_length_witness :
  Smoogs.getTransaction Sample.smoogs (AValue (Str "a1b2c3")) AFunction (Sample.ok "")
  = {| sent := []; result := Threw InvalidArgument |}.
Proof.
  apply (Smoogs_getTransaction_rejects_length (B := Sample.bitcore)).
  intros s [= <-]. vm_compute. lia.
Defined.

(** C8, as stated, fails: an id of 64 characters that are no hexadecimal
    digits passes the checks and the request is issued. *)
Lemma Smoogs_getTransaction_not_hex :
  let txid := "zzzzzzzzzzzzzzzzzzzzzzzzzzzzzzzzzzzzzzzzzzzzzzzzzzzzzzzzzzzzzzzz" in
  let r := Smoogs.getTransaction Sample.smoogs (AValue (Str txid)) AFunction
             {| err := None; statusCode := 404; body := Str "Not found" |} in
  String.length txid = 64%nat
  ∧ Sample.isHexa (Str txid) = false
  ∧ sent r = [ {| req_method := GET;
                  req_base := AValue (Str "https://smoogs.io/api/v1/blockchain");
                  req_path := "/tx/" +:+ txid;
                  req_contentType := false;
                  req_json := JsonTrue |} ]
  ∧ result r ≠ Threw InvalidArgument.
Proof. repeat split. discriminate. Qed.

(** C5, at a failing input: the provider answers a fee request with
    status 500 and a body; the callback gets no error and no estimation. *)
Lemma Smoogs_feeEstimation_swallows_failure :
  Smoogs.feeEstimation Sample.smoogs (AValue (Num 2)) AFunction
    {| err := None; statusCode := 500;
       body := Obj [("error", Str "Internal Server Error")] |}
  = {| sent := [ {| req_method := GET;
                    req_base := AValue (Str "https://smoogs.io/api/v1/blockchain");
                    req_path := "/fee/2";
                    req_contentType := false;
                    req_json := JsonTrue |} ];
       result := Called (ErrValue Undefined) None |}.
Proof. reflexivity. Qed.

(** ** Construction *)

Section Construction.
Context {B : Bitcore}.

(** C10.  For a network identifier [id] (truthy, and known to
    [Networks.get] as network [n]) and for the endpoint each provider
    documents for [n], which is no network identifier itself: the adapter
    built from [id] alone and the adapter built from that endpoint, with
    any network argument, have the same url, the endpoint. *)
Theorem constructor_canonical_url
    (token : value) (id network : argument) (n : Network) :
  truthyArg id = true →
  Networks_get id = Some n →
  Networks_get (AValue (Str (blockcypherEndpoint n))) = None →
  Networks_get (AValue (Str (smoogsEndpoint n))) = None →
  Blockcypher.url (Blockcypher.new token id (AValue Undefined))
    = AValue (Str (blockcypherEndpoint n))
  ∧ Blockcypher.url (Blockcypher.new token (AValue (Str (blockcypherEndpoint n))) network)
    = AValue (Str (blockcypherEndpoint n))
  ∧ Smoogs.url (Smoogs.new id (AValue Undefined))
    = AValue (Str (smoogsEndpoint n))
  ∧ Smoogs.url (Smoogs.new (AValue (Str (smoogsEndpoint n))) network)
    = AValue (Str (smoogsEndpoint n)).
Proof.
  intros Htruthy Hid Hblockcypher Hsmoogs.
  assert (HtruthyB : truthyArg (AValue (Str (blockcypherEndpoint n))) = true).
  { unfold blockcypherEndpoint. destruct (decide (n = Networks_livenet)); reflexivity. }
  assert (HtruthyS : truthyArg (AValue (Str (smoogsEndpoint n))) = true).
  { unfold smoogsEndpoint. destruct (decide (n = Networks_livenet)); reflexivity. }
  unfold Blockcypher.new, Smoogs.new.
  rewrite Htruthy, HtruthyB, HtruthyS. simpl.
  unfold Blockcypher.init, Smoogs.init.
  rewrite Hid, Hblockcypher, Hsmoogs. simpl.
  unfold blockcypherEndpoint, smoogsEndpoint.
  destruct (decide (n = Networks_livenet)); repeat split.
Qed.

(** Without url and network the adapters are built for the default
    network. *)
Lemma constructor_default (token : value) :
  Blockcypher.new token (AValue Undefined) (AValue Undefined)
    = Blockcypher.new token (ANetwork Networks_defaultNetwork) (AValue Undefined)
  ∧ Smoogs.new (AValue Undefined) (AValue Undefined)
    = Smoogs.new (ANetwork Networks_defaultNetwork) (AValue Undefined).
Proof. split; reflexivity. Qed.

End Construction.

Lemma constructor_canonical_url_witness :
  Blockcypher.url (Blockcypher.new (B := Sample.bitcore) (Str "secret")
                     (AValue (Str "testnet")) (AValue Undefined))
    = AValue (Str "https://api.blockcypher.com/v1/btc/test3")
  ∧ Blockcypher.url (Blockcypher.new (B := Sample.bitcore) (Str "secret")
                       (AValue (Str "https://api.blockcypher.com/v1/btc/test3"))
                       (AValue (Str "testnet")))
    = AValue (Str "https://api.blockcypher.com/v1/btc/test3")
  ∧ Smoogs.url (Smoogs.new (B := Sample.bitcore) (AValue (Str "testnet")) (AValue Undefined))
    = AValue (Str "https://smoogs.io/api/testing/blockchain")
  ∧ Smoogs.url (Smoogs.new (B := Sample.bitcore)
                  (AValue (Str "https://smoogs.io/api/testing/blockchain"))
                  (AValue (Str "testnet")))
    = AValue (Str "https://smoogs.io/api/testing/blockchain").
Proof.
  apply (constructor_canonical_url (B := Sample.bitcore) (Str "secret")
           (AValue (Str "testnet")) (AValue (Str "testnet")) Sample.testnet);
    reflexivity.
Defined.

(** ** Loops that may throw *)

Section MapM.
Context {A C : Type} (f : A → completion C).

Lemma mapM_Normal (l : list A) (ys : list C) :
  mapM f l = Normal ys → Forall2 (fun x y => f x = Normal y) l ys.
Proof.
  revert ys. induction l as [| x l IH]; intros ys; simpl.
  - intros [= <-]. constructor.
  - destruct (f x) as [y |] eqn:Hx; simpl; [| discriminate].
    destruct (mapM f l) as [ys' |]; simpl; [| discriminate].
    intros [= <-]. constructor; [exact Hx | apply IH; reflexivity].
Qed.

(** The first element that makes [f] throw ends the loop with its
    exception. *)
Lemma mapM_Abrupt (before after : list A) (x : A) (e : error) :
  Forall (fun b => ∃ y, f b = Normal y) before →
  f x = Abrupt e →
  mapM f (before ++ x :: after)%list = Abrupt e.
Proof.
  intros Hbefore Hx. induction Hbefore as [| b before [y Hb] _ IH]; simpl.
  - rewrite Hx. reflexivity.
  - rewrite Hb. simpl. rewrite IH. reflexivity.
Qed.

(** A projection that [f] preserves is preserved by the loop. *)
Lemma mapM_map {K : Type} (g : A → K) (h : C → K) (l : list A) (ys : list C) :
  (∀ x y, f x = Normal y → h y = g x) →
  mapM f l = Normal ys →
  map h ys = map g l.
Proof.
  intros Hkeep Hl. apply mapM_Normal in Hl.
  induction Hl as [| x y l ys Hxy _ IH]; simpl; [reflexivity |].
  rewrite (Hkeep x y Hxy), IH. reflexivity.
Qed.

End MapM.

(** ** Unspent outputs: validation *)

Section Addresses.
Context {J : Json} {B : Bitcore}.

(** C7.  [getUnspentUtxos], on either adapter, with a list in which
    [new Address] rejects an entry throws the error of the first such
    entry and issues no request. *)
Theorem getUnspentUtxos_rejects_address
    (blockcypher : Blockcypher.t) (smoogs : Smoogs.t)
    (addresses : Blockcypher.addressesArg) (callback : argument)
    (before after : list argument) (a : argument) (e : error)
    (responses : list response) (arrival : list nat) (res : response) :
  isFunction callback = true →
  Blockcypher.toArray addresses = (before ++ a :: after)%list →
  Forall (fun b => ∃ x, Address_new b = Normal x) before →
  Address_new a = Abrupt e →
  Blockcypher.getUnspentUtxos blockcypher addresses callback responses arrival =
    {| sent := []; result := Threw e |}
  ∧ Smoogs.getUnspentUtxos smoogs addresses callback res =
    {| sent := []; result := Threw e |}.
Proof.
  intros Hcallback Hlist Hbefore Ha.
  unfold Blockcypher.getUnspentUtxos, Blockcypher.getUnspentUtxos_requests,
    Smoogs.getUnspentUtxos, Smoogs.getUnspentUtxos_request, exchange.
  rewrite Hcallback, Hlist, (mapM_Abrupt Address_new before after a e Hbefore Ha).
  split; reflexivity.
Qed.

(** An empty list passes: Blockcypher calls back at once with no output,
    Smoogs asks the provider about no address. *)
Lemma getUnspentUtxos_empty
    (blockcypher : Blockcypher.t) (smoogs : Smoogs.t)
    (responses : list response) (arrival : list nat) (res : response) :
  Blockcypher.getUnspentUtxos blockcypher (Blockcypher.Several []) AFunction
    responses arrival =
    {| sent := []; result := Called (ErrValue Null) (Some []) |}
  ∧ Smoogs.getUnspentUtxos smoogs (Blockcypher.Several []) AFunction res =
    {| sent := [ {| req_method := GET; req_base := Smoogs.url smoogs;
                    req_path := "/utxos?addresses="; req_contentType := false;
                    req_json := JsonTrue |} ];
       result := Smoogs.getUnspentUtxos_handler res |}.
Proof. split; reflexivity. Qed.

End Addresses.

Lemma getUnspentUtxos_rejects_address_witness :
  Blockcypher.getUnspentUtxos (J := Sample.json) Sample.blockcypher
    (Blockcypher.Several [AValue (Str "1Owner"); AValue (Str "?"); AValue (Str "1Other")])
    AFunction [Sample.ok Sample.addressText] [0%nat]
  = {| sent := []; result := Threw (CodecError "Invalid address") |}
  ∧ Smoogs.getUnspentUtxos Sample.smoogs
      (Blockcypher.Several [AValue (Str "1Owner"); AValue (Str "?"); AValue (Str "1Other")])
      AFunction (Sample.ok "[]")
  = {| sent := []; result := Threw (CodecError "Invalid address") |}.
Proof.
  apply (getUnspentUtxos_rejects_address (J := Sample.json) (B := Sample.bitcore)
           Sample.blockcypher Sample.smoogs _ AFunction
           [AValue (Str "1Owner")] [AValue (Str "1Other")] (AValue (Str "?")));
    [reflexivity | reflexivity | | reflexivity].
  repeat constructor. eexists. reflexivity.
Defined.

(** C7, as stated, fails: an empty list is answered with the empty result,
    and an address of testnet goes through an adapter for livenet. *)
Lemma getUnspentUtxos_empty_or_other_network :
  let r := Blockcypher.getUnspentUtxos (J := Sample.json) (B := Sample.bitcore)
             Sample.blockcypher
             (Blockcypher.Single (B := Sample.bitcore) Sample.testnetOwner) AFunction
             [Sample.ok Sample.addressText] [0%nat] in
  Blockcypher.getUnspentUtxos (J := Sample.json) Sample.blockcypher
    (Blockcypher.Several []) AFunction [] []
  = {| sent := []; result := Called (ErrValue Null) (Some []) |}
  ∧ Blockcypher.network Sample.blockcypher = Sample.livenet
  ∧ sent r = [ {| req_method := GET;
                  req_base := AValue (Str "https://api.blockcypher.com/v1/btc/main");
                  req_path := "/addrs/mOwner?unspentOnly=true&includeScript=true&token=secret";
                  req_contentType := true;
                  req_json := NoJson |} ]
  ∧ result r = Called (ErrValue Null)
                 (Some [Some (Str Sample.txid1, Num 1, Num 7000)]).
Proof. vm_compute. repeat split. Qed.

(** ** Unspent outputs: decoding *)

Section Decoding.
Context {J : Json} {B : Bitcore}.

Lemma blockcypherToBitcoreOutputFormat_key (reference : value) (o : outputFormat) :
  Blockcypher.blockcypherToBitcoreOutputFormat reference = Normal o →
  (txId o, outputIndex o) = referenceKey reference.
Proof.
  unfold Blockcypher.blockcypherToBitcoreOutputFormat, referenceKey, propertyOf.
  destruct (getProp reference "tx_hash") as [tx_hash |]; simpl; [| discriminate].
  destruct (getProp reference "tx_output_n") as [tx_output_n |]; simpl; [| discriminate].
  destruct (getProp reference "value") as [amount |]; simpl; [| discriminate].
  destruct (getProp reference "script") as [script |]; simpl; [| discriminate].
  destruct (Script_toAddress script) as [address |]; simpl; [| discriminate].
  intros [= <-]. reflexivity.
Qed.

(** C3.  When an address document decodes, the outputs are those of its
    confirmed references followed by those of its unconfirmed
    references, one output per reference and with the reference's
    transaction id and output index; so these pairs are distinct among the
    outputs exactly when they are among the references. *)
Theorem processAddressInfoIntoOutputs_keys
    (rawInfo : value) (outputs : list UnspentOutput) :
  keepsKey →
  Blockcypher.processAddressInfoIntoOutputs rawInfo = Normal outputs →
  ∃ info,
    JSON_parse (ToString rawInfo) = Normal info
    ∧ let references :=
        (Blockcypher.getMaybeArray (propertyOf info "txrefs") ++
         Blockcypher.getMaybeArray (propertyOf info "unconfirmed_txrefs"))%list in
      map outputKey outputs = map referenceKey references
      ∧ length outputs = length references
      ∧ (NoDup (map outputKey outputs) ↔ NoDup (map referenceKey references)).
Proof.
  intros Hkeeps. unfold Blockcypher.processAddressInfoIntoOutputs.
  destruct (JSON_parse (ToString rawInfo)) as [info |]; simpl; [| discriminate].
  destruct (getProp info "txrefs") as [txrefs |] eqn:Htxrefs; simpl; [| discriminate].
  destruct (getProp info "unconfirmed_txrefs") as [unconfirmed |] eqn:Hunconfirmed;
    simpl; [| discriminate].
  destruct (mapM Blockcypher.blockcypherToBitcoreOutputFormat _)
    as [formatted |] eqn:Hformatted; simpl; [| discriminate].
  intros Houtputs. exists info. split; [reflexivity |].
  unfold propertyOf. rewrite Htxrefs, Hunconfirmed.
  assert (Hkeys : map outputKey outputs =
                  map referenceKey (Blockcypher.getMaybeArray txrefs ++
                                    Blockcypher.getMaybeArray unconfirmed)%list).
  { rewrite (mapM_map UnspentOutput_new (fun o => (txId o, outputIndex o)) outputKey
               formatted outputs Hkeeps Houtputs).
    apply (mapM_map Blockcypher.blockcypherToBitcoreOutputFormat referenceKey
             (fun o => (txId o, outputIndex o)) _ formatted); [| exact Hformatted].
    intros reference o Ho. apply blockcypherToBitcoreOutputFormat_key, Ho. }
  split; [exact Hkeys |]. split.
  - rewrite <- (length_map outputKey outputs), Hkeys, length_map. reflexivity.
  - rewrite Hkeys. reflexivity.
Qed.

End Decoding.

Lemma Sample_keepsKey : keepsKey (B := Sample.bitcore).
Proof.
  intros o u. simpl. unfold Sample.newUnspentOutput, outputKey.
  destruct (_ && _); [intros [= <-]; reflexivity | discriminate].
Qed.

Lemma processAddressInfoIntoOutputs_keys_witness :
  ∃ info,
    Sample.parse Sample.addressText = Normal info
    ∧ let references :=
        (Blockcypher.getMaybeArray (propertyOf info "txrefs") ++
         Blockcypher.getMaybeArray (propertyOf info "unconfirmed_txrefs"))%list in
      map (outputKey (B := Sample.bitcore)) [(Str Sample.txid1, Num 1, Num 7000)]
        = map referenceKey references
      ∧ length [(Str Sample.txid1, Num 1, Num 7000)] = length references
      ∧ (NoDup (map (outputKey (B := Sample.bitcore)) [(Str Sample.txid1, Num 1, Num 7000)])
         ↔ NoDup (map referenceKey references)).
Proof.
  apply (processAddressInfoIntoOutputs_keys (J := Sample.json) (B := Sample.bitcore)
           (Str Sample.addressText) [(Str Sample.txid1, Num 1, Num 7000)]).
  - exact Sample_keepsKey.
  - vm_compute. reflexivity.
Defined.

(** C3, as stated, fails: a reference that the provider lists both as
    confirmed and as unconfirmed comes out twice. *)
Lemma processAddressInfoIntoOutputs_duplicates :
  let u : value * value * value := (Str Sample.txid1, Num 0, Num 50000) in
  Blockcypher.processAddressInfoIntoOutputs (J := Sample.json) (B := Sample.bitcore)
    (Str Sample.overlappingText) = Normal [u; u]
  ∧ result (Blockcypher.getUnspentUtxos (J := Sample.json) Sample.blockcypher
              (Blockcypher.Single (AValue (Str "1Owner"))) AFunction
              [Sample.ok Sample.overlappingText] [0%nat])
    = Called (ErrValue Null) (Some [Some u; Some u])
  ∧ ¬ NoDup (map (outputKey (B := Sample.bitcore)) [u; u]).
Proof.
  split; [vm_compute; reflexivity |]. split; [vm_compute; reflexivity |].
  intros Hnodup. apply NoDup_cons in Hnodup as [Hnotin _].
  apply Hnotin. left.
Qed.

(** ** Unspent outputs: the fan-out over addresses *)

Section FanOut.
Context {J : Json} {B : Bitcore}.

Lemma arrive_failure (n : nat) (st : Blockcypher.mapState) (i : nat)
    (res : response) (f : failure) :
  fetchFailure res = Some f →
  Blockcypher.arrive n st i res = inr (failsWith f).
Proof.
  unfold fetchFailure, Blockcypher.arrive.
  destruct (Blockcypher.getAddress_handler res) as [e | outputs | e].
  - destruct (truthyErr e) eqn:He; [| discriminate].
    intros [= <-]. unfold Blockcypher.getUnspentUtxos_final. rewrite He. reflexivity.
  - discriminate.
  - intros [= <-]. reflexivity.
Qed.

Lemma arrive_completion (n : nat) (st : Blockcypher.mapState) (i : nat)
    (res : response) :
  fetchFailure res = None →
  S (Blockcypher.completed st) ≠ n →
  ∃ st', Blockcypher.arrive n st i res = inl st'
         ∧ Blockcypher.completed st' = S (Blockcypher.completed st).
Proof.
  unfold fetchFailure, Blockcypher.arrive, Blockcypher.complete.
  intros Hnone Hmore. apply Nat.eqb_neq in Hmore.
  destruct (Blockcypher.getAddress_handler res) as [e | outputs | e].
  - destruct (truthyErr e); [discriminate |].
    cbn [Blockcypher.completed]. rewrite Hmore. eexists. split; reflexivity.
  - cbn [Blockcypher.completed]. rewrite Hmore. eexists. split; reflexivity.
  - discriminate.
Qed.

(** While no failing fetch has arrived and fetches are outstanding,
    [async.map] goes on; the first failing fetch to arrive ends it. *)
Lemma asyncMap_first_failure (n : nat) (responses : list response)
    (before after : list nat) (i : nat) (res : response) (f : failure)
    (st : Blockcypher.mapState) :
  (∀ j, j ∈ before → ¬ fails responses j) →
  (Blockcypher.completed st + length before < n)%nat →
  responses !! i = Some res →
  fetchFailure res = Some f →
  Blockcypher.asyncMap n responses (before ++ i :: after)%list st = failsWith f.
Proof.
  intros Hbefore Hroom Hi Hf. revert st Hbefore Hroom.
  induction before as [| j before IH]; intros st Hbefore Hroom; simpl.
  - rewrite Hi, (arrive_failure n st i res f Hf). reflexivity.
  - simpl in Hroom.
    assert (Hrest : ∀ k, k ∈ before → ¬ fails responses k)
      by (intros k Hk; apply Hbefore; right; exact Hk).
    destruct (responses !! j) as [res' |] eqn:Hj.
    + assert (Hnone : fetchFailure res' = None).
      { destruct (fetchFailure res') as [f' |] eqn:Hf'; [| reflexivity].
        exfalso. apply (Hbefore j); [left |]. exists res', f'. split; assumption. }
      destruct (arrive_completion n st j res' Hnone) as (st' & -> & Hcompleted); [lia |].
      apply IH; [exact Hrest | lia].
    + apply IH; [exact Hrest | lia].
Qed.

Lemma first_failing (responses : list response) (arrival : list nat) (i : nat) :
  i ∈ arrival →
  fails responses i →
  ∃ before k after,
    arrival = (before ++ k :: after)%list
    ∧ (∀ j, j ∈ before → ¬ fails responses j)
    ∧ fails responses k.
Proof.
  intros Hin Hfails. induction arrival as [| j arrival IH]; [inversion Hin |].
  assert (Hdec : fails responses j ∨ ¬ fails responses j).
  { unfold fails. destruct (responses !! j) as [res |] eqn:Hres.
    - destruct (fetchFailure res) as [f |] eqn:Hf.
      + left. exists res, f. split; [reflexivity | exact Hf].
      + right. intros (res' & f & [= <-] & Hf'). congruence.
    - right. intros (res' & f & Hres' & _). discriminate. }
  destruct Hdec as [Hj | Hj].
  - exists [], j, arrival. split; [reflexivity |]. split; [| exact Hj].
    intros k Hk. inversion Hk.
  - apply elem_of_cons in Hin as [-> | Hin]; [contradiction |].
    destruct (IH Hin) as (before & k & after & -> & Hbefore & Hk).
    exists (j :: before), k, after. split; [reflexivity |]. split; [| exact Hk].
    intros m Hm. apply elem_of_cons in Hm as [-> | Hm]; [exact Hj | apply Hbefore, Hm].
Qed.

Lemma arrive_no_failure (n : nat) (st : Blockcypher.mapState) (i : nat)
    (res : response) :
  fetchFailure res = None →
  Blockcypher.arrive n st i res =
    Blockcypher.complete n
      {| Blockcypher.results := <[i := slot res]> (Blockcypher.results st);
         Blockcypher.completed := S (Blockcypher.completed st) |}.
Proof.
  unfold fetchFailure, slot, Blockcypher.arrive.
  destruct (Blockcypher.getAddress_handler res) as [e | outputs | e];
    [destruct (truthyErr e) | |]; (discriminate || reflexivity).
Qed.

Lemma resultsArray_full (responses : list response)
    (results : gmap nat (option (list UnspentOutput))) :
  (∀ i res, responses !! i = Some res → results !! i = Some (slot res)) →
  Blockcypher.resultsArray (length responses) results = map slot responses.
Proof.
  intros Hfull. unfold Blockcypher.resultsArray. apply list_eq. intros i.
  rewrite !list_lookup_fmap.
  destruct (responses !! i) as [res |] eqn:Hres; simpl.
  - rewrite (lookup_seq_lt _ _ _ (lookup_lt_Some _ _ _ Hres)). simpl.
    rewrite (Hfull i res Hres). reflexivity.
  - rewrite (lookup_seq_ge _ _ _ (proj1 (lookup_ge_None _ _) Hres)). reflexivity.
Qed.

(** While no fetch fails, [async.map] waits for every response and then
    hands over the flattened results, in the order of the addresses. *)
Lemma asyncMap_completes (responses : list response) (seen rest : list nat)
    (st : Blockcypher.mapState) :
  (∀ i, ¬ fails responses i) →
  (seen ++ rest)%list ≡ₚ seq 0 (length responses) →
  Blockcypher.completed st = length seen →
  (∀ i res, i ∈ seen → responses !! i = Some res →
            Blockcypher.results st !! i = Some (slot res)) →
  rest ≠ [] →
  Blockcypher.asyncMap (length responses) responses rest st =
    Called (ErrValue Null) (Some (flatten (map slot responses))).
Proof.
  intros Hnone. revert seen st.
  induction rest as [| i rest IH]; intros seen st Hperm Hcompleted Hresults Hrest;
    [contradiction |].
  assert (Hlength : (length seen + S (length rest))%nat = length responses).
  { apply Permutation_length in Hperm.
    rewrite length_app, length_seq in Hperm. exact Hperm. }
  assert (Hi : (i < length responses)%nat).
  { assert (Hin : i ∈ seq 0 (length responses))
      by (rewrite <- Hperm; apply elem_of_app; right; left).
    apply elem_of_seq in Hin. lia. }
  destruct (lookup_lt_is_Some_2 responses i Hi) as [res Hres].
  assert (Hok : fetchFailure res = None).
  { destruct (fetchFailure res) as [f |] eqn:Hf; [| reflexivity].
    exfalso. apply (Hnone i). exists res, f. split; assumption. }
  simpl. rewrite Hres, (arrive_no_failure _ st i res Hok).
  unfold Blockcypher.complete. cbn [Blockcypher.completed Blockcypher.results].
  assert (Hresults' : ∀ k res', k ∈ (seen ++ [i])%list → responses !! k = Some res' →
            <[i := slot res]> (Blockcypher.results st) !! k = Some (slot res')).
  { intros k res' Hk Hres'. destruct (decide (k = i)) as [-> | Hne].
    - rewrite lookup_insert_eq. congruence.
    - rewrite lookup_insert_ne by congruence.
      apply elem_of_app in Hk as [Hk | Hk]; [apply Hresults; assumption |].
      apply list_elem_of_singleton in Hk. contradiction. }
  destruct rest as [| j rest].
  - assert (Hdone : (S (Blockcypher.completed st) =? length responses)%nat = true)
      by (apply Nat.eqb_eq; simpl in Hlength; lia).
    rewrite Hdone. unfold Blockcypher.getUnspentUtxos_final. simpl.
    rewrite resultsArray_full; [reflexivity |].
    intros k res' Hres'. apply Hresults'; [| exact Hres'].
    rewrite Hperm. apply lookup_lt_Some in Hres'. apply elem_of_seq. lia.
  - assert (Hmore : (S (Blockcypher.completed st) =? length responses)%nat = false)
      by (apply Nat.eqb_neq; simpl in Hlength; lia).
    rewrite Hmore.
    apply (IH (seen ++ [i])%list).
    + rewrite <- app_assoc. exact Hperm.
    + cbn [Blockcypher.completed]. rewrite length_app. simpl. lia.
    + exact Hresults'.
    + discriminate.
Qed.

Lemma failsWith_no_result {R} (f : failure) (err : errArg) (r : R) :
  failsWith f ≠ Called err (Some r).
Proof. destruct f; discriminate. Qed.

(** X18.  Fail-fast aggregation.  When the requests of [getUnspentUtxos] have
    gone out, every response arrives, in whatever order, and at least one
    fetch fails, the call ends with the failure of the failing fetch that
    arrives first; no list of outputs is handed to the callback. *)
Theorem Blockcypher_getUnspentUtxos_fails_fast
    (self : Blockcypher.t) (addresses : Blockcypher.addressesArg)
    (callback : argument) (requests : list request)
    (responses : list response) (arrival : list nat) :
  Blockcypher.getUnspentUtxos_requests self addresses callback = Normal requests →
  length responses = length requests →
  arrival ≡ₚ seq 0 (length requests) →
  (∃ i, fails responses i) →
  ∃ before i after res f,
    arrival = (before ++ i :: after)%list
    ∧ (∀ j, j ∈ before → ¬ fails responses j)
    ∧ responses !! i = Some res
    ∧ fetchFailure res = Some f
    ∧ Blockcypher.getUnspentUtxos self addresses callback responses arrival =
        {| sent := requests; result := failsWith f |}
    ∧ ∀ err outputs,
        result (Blockcypher.getUnspentUtxos self addresses callback responses arrival)
          ≠ Called err (Some outputs).
Proof.
  intros Hrequests Hlength Harrival (i0 & Hfails).
  assert (Hi0 : i0 ∈ arrival).
  { rewrite Harrival. apply elem_of_seq.
    destruct Hfails as (res & f & Hres & _).
    apply lookup_lt_Some in Hres. lia. }
  destruct (first_failing responses arrival i0 Hi0 Hfails)
    as (before & i & after & Hsplit & Hbefore & (res & f & Hres & Hf)).
  assert (Hroom : (length before < length requests)%nat).
  { apply Permutation_length in Harrival.
    rewrite length_seq, Hsplit, length_app in Harrival. simpl in Harrival. lia. }
  assert (Hrun : Blockcypher.getUnspentUtxos self addresses callback responses arrival =
                 {| sent := requests; result := failsWith f |}).
  { unfold Blockcypher.getUnspentUtxos. rewrite Hrequests. f_equal.
    destruct requests as [| request requests]; [simpl in Hroom; lia |].
    rewrite Hsplit.
    apply (asyncMap_first_failure _ responses before after i res f); simpl; auto. }
  exists before, i, after, res, f.
  repeat (split; [assumption |]).
  intros err outputs. rewrite Hrun. apply failsWith_no_result.
Qed.

(** X17.  Without a failing fetch the callback receives the flattened results
    in the order of the addresses, whatever the order of arrival; a fetch
    that reported something falsy stands there as [undefined]. *)
Theorem Blockcypher_getUnspentUtxos_completes
    (self : Blockcypher.t) (addresses : Blockcypher.addressesArg)
    (callback : argument) (requests : list request)
    (responses : list response) (arrival : list nat) :
  Blockcypher.getUnspentUtxos_requests self addresses callback = Normal requests →
  length responses = length requests →
  arrival ≡ₚ seq 0 (length requests) →
  (∀ i, ¬ fails responses i) →
  Blockcypher.getUnspentUtxos self addresses callback responses arrival =
    {| sent := requests;
       result := Called (ErrValue Null) (Some (flatten (map slot responses))) |}.
Proof.
  intros Hrequests Hlength Harrival Hnone.
  unfold Blockcypher.getUnspentUtxos. rewrite Hrequests. f_equal.
  destruct requests as [| request requests].
  - destruct responses; [reflexivity | discriminate].
  - rewrite <- Hlength in *.
    apply (asyncMap_completes responses [] arrival); auto.
    + intros i res Hi. inversion Hi.
    + intros ->. apply Permutation_length in Harrival.
      rewrite length_seq, Hlength in Harrival. discriminate.
Qed.

End FanOut.

Lemma Blockcypher_getUnspentUtxos_fails_fast_witness :
  ∃ before i after res f,
    [1; 0]%nat = (before ++ i :: after)%list
    ∧ (∀ j, j ∈ before →
         ¬ fails (J := Sample.json) (B := Sample.bitcore)
             [Sample.ok Sample.addressText; Sample.failed 500 "Internal Server Error"] j)
    ∧ [Sample.ok Sample.addressText; Sample.failed 500 "Internal Server Error"] !! i = Some res
    ∧ fetchFailure (J := Sample.json) (B := Sample.bitcore) res = Some f
    ∧ Blockcypher.getUnspentUtxos (J := Sample.json) Sample.blockcypher
        (Blockcypher.Several [AValue (Str "1Owner"); AValue (Str "1Other")]) AFunction
        [Sample.ok Sample.addressText; Sample.failed 500 "Internal Server Error"]
        [1; 0]%nat
      = {| sent := [ {| req_method := GET;
                        req_base := AValue (Str "https://api.blockcypher.com/v1/btc/main");
                        req_path := "/addrs/1Owner?unspentOnly=true&includeScript=true&token=secret";
                        req_contentType := true;
                        req_json := NoJson |};
                     {| req_method := GET;
                        req_base := AValue (Str "https://api.blockcypher.com/v1/btc/main");
                        req_path := "/addrs/1Other?unspentOnly=true&includeScript=true&token=secret";
                        req_contentType := true;
                        req_json := NoJson |} ];
           result := failsWith f |}
    ∧ ∀ err outputs,
        result (Blockcypher.getUnspentUtxos (J := Sample.json) Sample.blockcypher
                  (Blockcypher.Several [AValue (Str "1Owner"); AValue (Str "1Other")])
                  AFunction
                  [Sample.ok Sample.addressText; Sample.failed 500 "Internal Server Error"]
                  [1; 0]%nat)
          ≠ Called err (Some outputs).
Proof.
  apply (Blockcypher_getUnspentUtxos_fails_fast (J := Sample.json) (B := Sample.bitcore)).
  - reflexivity.
  - reflexivity.
  - simpl. apply Permutation_swap.
  - exists 1%nat, (Sample.failed 500 "Internal Server Error"),
      (Reported (ErrValue (Str "Internal Server Error"))).
    split; reflexivity.
Defined.

(** ** Failures that do not reach the caller *)

Section Unsurfaced.
Context {J : Json} {B : Bitcore}.

(** A fetch that the provider answers with a failing status and an empty
    body is reported with the empty string, which is no error to
    [async.map]. *)
Lemma fetchFailure_empty_body (status : Z) :
  status ≠ 200 →
  fetchFailure {| err := None; statusCode := status; body := Str "" |} = None.
Proof.
  intros Hstatus. apply Z.eqb_neq in Hstatus.
  unfold fetchFailure, Blockcypher.getAddress_handler. simpl.
  rewrite Hstatus. reflexivity.
Qed.

(** An address document that is no JSON makes the handler of
    [_getAddress] throw ... *)
Lemma getAddress_handler_unparsable (res : response) :
  err res = None →
  statusCode res = 200 →
  JSON_parse (ToString (body res)) = Abrupt SyntaxError →
  Blockcypher.getAddress_handler res = Blockcypher.Raises SyntaxError.
Proof.
  intros Herr Hstatus Hparse.
  unfold Blockcypher.getAddress_handler, Blockcypher.processAddressInfoIntoOutputs.
  rewrite Herr, Hstatus, Hparse. reflexivity.
Qed.

(** ... while the handler of [feeEstimation] hands the [SyntaxError] to
    the callback. *)
Lemma feeEstimation_handler_unparsable (withinBlocks : option Z) (res : response)
    (text : string) :
  err res = None →
  statusCode res = 200 →
  body res = Str text →
  JSON_parse text = Abrupt SyntaxError →
  Blockcypher.feeEstimation_handler withinBlocks res = Called (ErrObject SyntaxError) None.
Proof.
  intros Herr Hstatus Hbody Hparse.
  unfold Blockcypher.feeEstimation_handler, FeeEstimation.fromBlockcypher.
  rewrite Herr, Hstatus, Hbody, Hparse. reflexivity.
Qed.

End Unsurfaced.

(** C9, at a failing input: the provider answers an address request with
    status 200 and a page that is no JSON.  The [SyntaxError] leaves the
    response handler and the callback is not invoked; the same body in
    answer to a fee request reaches the callback as the [SyntaxError]. *)
Lemma Blockcypher_getUnspentUtxos_unparsable :
  Blockcypher.getUnspentUtxos (J := Sample.json) Sample.blockcypher
    (Blockcypher.Single (AValue (Str "1Owner"))) AFunction
    [Sample.ok "<html>Service Unavailable</html>"] [0%nat]
  = {| sent := [ {| req_method := GET;
                    req_base := AValue (Str "https://api.blockcypher.com/v1/btc/main");
                    req_path := "/addrs/1Owner?unspentOnly=true&includeScript=true&token=secret";
                    req_contentType := true;
                    req_json := NoJson |} ];
       result := Threw SyntaxError |}
  ∧ result (Blockcypher.feeEstimation (J := Sample.json) Sample.blockcypher
              (AValue (Num 2)) AFunction (Sample.ok "<html>Service Unavailable</html>"))
    = Called (ErrObject SyntaxError) None.
Proof. split; vm_compute; reflexivity. Qed.

(** C4, at a failing input: of two fetches the second is answered with
    status 500 and an empty body.  [_getAddress] reports the empty string,
    [async.map] takes the fetch for completed, and the callback receives
    the outputs of the first address and [undefined]. *)
Lemma Blockcypher_getUnspentUtxos_partial :
  let run arrival :=
    Blockcypher.getUnspentUtxos (J := Sample.json) Sample.blockcypher
      (Blockcypher.Several [AValue (Str "1Owner"); AValue (Str "1Other")]) AFunction
      [Sample.ok Sample.addressText; Sample.failed 500 ""] arrival in
  run [1; 0]%nat = run [0; 1]%nat
  ∧ run [0; 1]%nat
  = {| sent := [ {| req_method := GET;
                    req_base := AValue (Str "https://api.blockcypher.com/v1/btc/main");
                    req_path := "/addrs/1Owner?unspentOnly=true&includeScript=true&token=secret";
                    req_contentType := true;
                    req_json := NoJson |};
                 {| req_method := GET;
                    req_base := AValue (Str "https://api.blockcypher.com/v1/btc/main");
                    req_path := "/addrs/1Other?unspentOnly=true&includeScript=true&token=secret";
                    req_contentType := true;
                    req_json := NoJson |} ];
       result := Called (ErrValue Null)
                   (Some [Some (Str Sample.txid1, Num 1, Num 7000); None]) |}.
Proof. split; vm_compute; reflexivity. Qed.

(** ** The adapters at work *)

Section Examples.

(** A transaction that the provider accepts. *)
Example Blockcypher_broadcast_accepted :
  result (Blockcypher.broadcast Sample.blockcypher (AValue (Str "0100beef")) AFunction
            {| err := None; statusCode := 201;
               body := Obj [("tx", Obj [("hash", Str Sample.txid1)])] |})
  = Called (ErrValue Null) (Some (Str Sample.txid1)).
Proof. reflexivity. Qed.

(** A transaction that the provider refuses for another reason: the body
    is the error. *)
Example Blockcypher_broadcast_refused :
  result (Blockcypher.broadcast Sample.blockcypher (AValue (Str "0100beef")) AFunction
            {| err := None; statusCode := 400;
               body := Obj [("error", Str "Error validating transaction: missing inputs.")] |})
  = Called (ErrValue (Obj [("error", Str "Error validating transaction: missing inputs.")]))
           None.
Proof. reflexivity. Qed.

(** The transport fails: its error is the callback's. *)
Example Blockcypher_broadcast_unreachable :
  result (Blockcypher.broadcast Sample.blockcypher (AValue (Str "0100beef")) AFunction
            {| err := Some (TransportError "ECONNREFUSED"); statusCode := 0;
               body := Undefined |})
  = Called (ErrObject (TransportError "ECONNREFUSED")) None.
Proof. reflexivity. Qed.

(** Two addresses, answered in the reverse order: the outputs come in
    the order of the addresses. *)
Example Blockcypher_getUnspentUtxos_two_addresses :
  result (Blockcypher.getUnspentUtxos (J := Sample.json) Sample.blockcypher
            (Blockcypher.Several [AValue (Str "1Owner"); AValue (Str "1Other")]) AFunction
            [Sample.ok Sample.addressText; Sample.ok Sample.overlappingText]
            [1; 0]%nat)
  = Called (ErrValue Null)
      (Some [Some (Str Sample.txid1, Num 1, Num 7000);
             Some (Str Sample.txid1, Num 0, Num 50000);
             Some (Str Sample.txid1, Num 0, Num 50000)]).
Proof. vm_compute. reflexivity. Qed.

(** Smoogs answers a fee request: the estimation is for the target as
    asked. *)
Example Smoogs_feeEstimation_answered :
  result (Smoogs.feeEstimation Sample.smoogs (AValue (Num 4)) AFunction
            {| err := None; statusCode := 200; body := Obj [("feePerKb", Num 12000)] |})
  = Called (ErrValue Null)
      (Some {| Smoogs.withinBlocks := Some 4; Smoogs.feePerKb := Num 12000 |}).
Proof. reflexivity. Qed.

(** Smoogs lists unspent outputs; one with a malformed id makes the
    conversion throw, and the list comes back unconverted. *)
Example Smoogs_getUnspentUtxos_answered :
  result (Smoogs.getUnspentUtxos Sample.smoogs (Blockcypher.Single (AValue (Str "1Owner")))
            AFunction
            {| err := None; statusCode := 200;
               body := Arr [Obj [("txid", Str Sample.txid1); ("vout", Num 0);
                                 ("satoshis", Num 50000)]] |})
  = Called (ErrValue Null)
      (Some (Smoogs.Converted (B := Sample.bitcore)
               [(Str Sample.txid1, Num 0, Num 50000)]))
  ∧ result (Smoogs.getUnspentUtxos Sample.smoogs (Blockcypher.Single (AValue (Str "1Owner")))
              AFunction
              {| err := None; statusCode := 200;
                 body := Arr [Obj [("txid", Str "?"); ("vout", Num 0);
                                   ("satoshis", Num 50000)]] |})
  = Called (ErrValue Null)
      (Some (Smoogs.Unconverted (Arr [Obj [("txid", Str "?"); ("vout", Num 0);
                                           ("satoshis", Num 50000)]]))).
Proof. split; reflexivity. Qed.

End Examples.

(** * Further properties of the adapters *)

(** ** What every response handler does with a failure *)

Section Handlers.
Context {J : Json} {B : Bitcore}.

(** X1.  A transport error is handed on as it is by every response
    handler, whatever the status and the body: to the caller's callback,
    and by [_getAddress] to the callback of [async.map]. *)
Theorem transport_error_handed_on (res : response) (e : error) (withinBlocks : option Z) :
  err res = Some e →
  Blockcypher.getAddress_handler res = Blockcypher.Reports (ErrObject e)
  ∧ Blockcypher.broadcast_handler res = Called (ErrObject e) None
  ∧ Blockcypher.feeEstimation_handler withinBlocks res = Called (ErrObject e) None
  ∧ Smoogs.getTransaction_handler res = Called (ErrObject e) None
  ∧ Smoogs.getUnspentUtxos_handler res = Called (ErrObject e) None
  ∧ Smoogs.broadcast_handler res = Called (ErrObject e) None
  ∧ Smoogs.feeEstimation_handler withinBlocks res = Called (ErrObject e) None.
Proof.
  intros Herr.
  unfold Blockcypher.getAddress_handler, Blockcypher.broadcast_handler,
    Blockcypher.feeEstimation_handler, Smoogs.getTransaction_handler,
    Smoogs.getUnspentUtxos_handler, Smoogs.broadcast_handler,
    Smoogs.feeEstimation_handler, errOrResponse.
  rewrite Herr. simpl. repeat split.
Qed.

(** X2.  A response without transport error whose status is not 200 is
    handed on with what the provider said: the body by [_getAddress], by
    Blockcypher's [feeEstimation] and by Smoogs' [broadcast]; the response
    itself, with status and body, by Smoogs' [getTransaction] and
    [getUnspentUtxos].  The body is not decoded. *)
Theorem failing_status_handed_on (res : response) (withinBlocks : option Z) :
  err res = None →
  statusCode res ≠ 200 →
  Blockcypher.getAddress_handler res = Blockcypher.Reports (ErrValue (body res))
  ∧ Blockcypher.feeEstimation_handler withinBlocks res = Called (ErrValue (body res)) None
  ∧ Smoogs.broadcast_handler res = Called (ErrValue (body res)) None
  ∧ Smoogs.getTransaction_handler res = Called (ErrResponse res) None
  ∧ Smoogs.getUnspentUtxos_handler res = Called (ErrResponse res) None.
Proof.
  intros Herr Hstatus. apply Z.eqb_neq in Hstatus.
  unfold Blockcypher.getAddress_handler, Blockcypher.feeEstimation_handler,
    Smoogs.getTransaction_handler, Smoogs.getUnspentUtxos_handler,
    Smoogs.broadcast_handler, errOrResponse.
  rewrite Herr, Hstatus. simpl. repeat split.
Qed.

End Handlers.

Lemma transport_error_handed_on_witness :
  let res := {| err := Some (TransportError "ETIMEDOUT"); statusCode := 200;
                body := Str Sample.addressText |} in
  Blockcypher.getAddress_handler (J := Sample.json) (B := Sample.bitcore) res
    = Blockcypher.Reports (ErrObject (TransportError "ETIMEDOUT"))
  ∧ Blockcypher.broadcast_handler res = Called (ErrObject (TransportError "ETIMEDOUT")) None
  ∧ Blockcypher.feeEstimation_handler (J := Sample.json) (Some 2) res
    = Called (ErrObject (TransportError "ETIMEDOUT")) None
  ∧ Smoogs.getTransaction_handler (B := Sample.bitcore) res
    = Called (ErrObject (TransportError "ETIMEDOUT")) None
  ∧ Smoogs.getUnspentUtxos_handler (B := Sample.bitcore) res
    = Called (ErrObject (TransportError "ETIMEDOUT")) None
  ∧ Smoogs.broadcast_handler res = Called (ErrObject (TransportError "ETIMEDOUT")) None
  ∧ Smoogs.feeEstimation_handler (Some 2) res
    = Called (ErrObject (TransportError "ETIMEDOUT")) None.
Proof.
  intros res.
  apply (transport_error_handed_on (J := Sample.json) (B := Sample.bitcore) res).
  reflexivity.
Defined.

Lemma failing_status_handed_on_witness :
  let res := {| err := None; statusCode := 429;
                body := Obj [("error", Str "Limits reached.")] |} in
  Blockcypher.getAddress_handler (J := Sample.json) (B := Sample.bitcore) res
    = Blockcypher.Reports (ErrValue (Obj [("error", Str "Limits reached.")]))
  ∧ Blockcypher.feeEstimation_handler (J := Sample.json) (Some 2) res
    = Called (ErrValue (Obj [("error", Str "Limits reached.")])) None
  ∧ Smoogs.broadcast_handler res
    = Called (ErrValue (Obj [("error", Str "Limits reached.")])) None
  ∧ Smoogs.getTransaction_handler (B := Sample.bitcore) res = Called (ErrResponse res) None
  ∧ Smoogs.getUnspentUtxos_handler (B := Sample.bitcore) res = Called (ErrResponse res) None.
Proof.
  intros res.
  apply (failing_status_handed_on (J := Sample.json) (B := Sample.bitcore) res);
    [reflexivity | simpl; lia].
Defined.

(** ** Validation of the arguments *)

Section Validation.
Context {J : Json} {B : Bitcore}.

(** X3.  Every operation of both adapters called with a callback that is
    no function throws [InvalidArgument] and issues no request, whatever
    its other arguments: invalid addresses are not looked at and a
    transaction is not serialized. *)
Theorem callback_must_be_function
    (blockcypher : Blockcypher.t) (smoogs : Smoogs.t) (callback : argument)
    (addresses : Blockcypher.addressesArg) (transaction withinBlocks txid : argument)
    (responses : list response) (arrival : list nat) (res : response) :
  isFunction callback = false →
  Blockcypher.getUnspentUtxos blockcypher addresses callback responses arrival
    = {| sent := []; result := Threw InvalidArgument |}
  ∧ Blockcypher.broadcast blockcypher transaction callback res
    = {| sent := []; result := Threw InvalidArgument |}
  ∧ Blockcypher.feeEstimation blockcypher withinBlocks callback res
    = {| sent := []; result := Threw InvalidArgument |}
  ∧ Smoogs.getTransaction smoogs txid callback res
    = {| sent := []; result := Threw InvalidArgument |}
  ∧ Smoogs.getUnspentUtxos smoogs addresses callback res
    = {| sent := []; result := Threw InvalidArgument |}
  ∧ Smoogs.broadcast smoogs transaction callback res
    = {| sent := []; result := Threw InvalidArgument |}
  ∧ Smoogs.feeEstimation smoogs withinBlocks callback res
    = {| sent := []; result := Threw InvalidArgument |}.
Proof.
  intros Hcallback.
  unfold Blockcypher.getUnspentUtxos, Blockcypher.getUnspentUtxos_requests,
    Blockcypher.broadcast, Blockcypher.broadcast_request,
    Blockcypher.feeEstimation, Blockcypher.feeEstimation_request,
    Smoogs.getTransaction, Smoogs.getTransaction_request,
    Smoogs.getUnspentUtxos, Smoogs.getUnspentUtxos_request,
    Smoogs.broadcast, Smoogs.broadcast_request,
    Smoogs.feeEstimation, Smoogs.feeEstimation_request, exchange.
  rewrite Hcallback. simpl.
  destruct (Blockcypher.isHexa transaction || instanceofTransaction transaction);
    repeat split.
Qed.

(** X4.  A fee estimation, on either adapter, for a target that is not a
    number or is a negative number throws [InvalidArgument] and issues no
    request. *)
Theorem feeEstimation_rejects_target
    (blockcypher : Blockcypher.t) (smoogs : Smoogs.t)
    (withinBlocks callback : argument) (res : response) :
  (∀ n, withinBlocks = AValue (Num n) → n < 0) →
  Blockcypher.feeEstimation blockcypher withinBlocks callback res
    = {| sent := []; result := Threw InvalidArgument |}
  ∧ Smoogs.feeEstimation smoogs withinBlocks callback res
    = {| sent := []; result := Threw InvalidArgument |}.
Proof.
  intros Htarget.
  assert (Hcheck : Blockcypher.isNumberAtLeast0 withinBlocks = false).
  { destruct withinBlocks as [v | | | |]; try reflexivity.
    destruct v; try reflexivity. simpl.
    apply Z.leb_gt, Htarget. reflexivity. }
  unfold Blockcypher.feeEstimation, Blockcypher.feeEstimation_request,
    Smoogs.feeEstimation, Smoogs.feeEstimation_request, exchange.
  rewrite Hcheck. destruct (isFunction callback); split; reflexivity.
Qed.

End Validation.

Lemma callback_must_be_function_witness :
  Blockcypher.getUnspentUtxos (J := Sample.json) Sample.blockcypher
    (Blockcypher.Several [AValue (Str "?")]) (AValue Undefined) [] []
    = {| sent := []; result := Threw InvalidArgument |}
  ∧ Blockcypher.broadcast Sample.blockcypher (AValue (Str "0100beef")) (AValue Undefined)
      (Sample.ok "")
    = {| sent := []; result := Threw InvalidArgument |}
  ∧ Blockcypher.feeEstimation (J := Sample.json) Sample.blockcypher (AValue (Num 2))
      (AValue Undefined) (Sample.ok "")
    = {| sent := []; result := Threw InvalidArgument |}
  ∧ Smoogs.getTransaction Sample.smoogs (AValue (Str Sample.txid1)) (AValue Undefined)
      (Sample.ok "")
    = {| sent := []; result := Threw InvalidArgument |}
  ∧ Smoogs.getUnspentUtxos Sample.smoogs (Blockcypher.Several [AValue (Str "?")])
      (AValue Undefined) (Sample.ok "")
    = {| sent := []; result := Threw InvalidArgument |}
  ∧ Smoogs.broadcast Sample.smoogs (AValue (Str "0100beef")) (AValue Undefined)
      (Sample.ok "")
    = {| sent := []; result := Threw InvalidArgument |}
  ∧ Smoogs.feeEstimation Sample.smoogs (AValue (Num 2)) (AValue Undefined) (Sample.ok "")
    = {| sent := []; result := Threw InvalidArgument |}.
Proof.
  apply (callback_must_be_function (J := Sample.json) (B := Sample.bitcore)).
  reflexivity.
Defined.

Lemma feeEstimation_rejects_target_witness :
  Blockcypher.feeEstimation (J := Sample.json) Sample.blockcypher (AValue (Num (-1)))
    AFunction (Sample.ok Sample.chainText)
    = {| sent := []; result := Threw InvalidArgument |}
  ∧ Smoogs.feeEstimation Sample.smoogs (AValue (Num (-1))) AFunction
      (Sample.ok Sample.chainText)
    = {| sent := []; result := Threw InvalidArgument |}.
Proof.
  apply (feeEstimation_rejects_target (J := Sample.json) (B := Sample.bitcore)).
  intros n [= <-]. lia.
Defined.

(** ** Broadcast: requests and answers *)

Section BroadcastAnswers.
Context {B : Bitcore}.

(** X5.  A [Transaction] is posted in serialized form: by Blockcypher
    with [serialize(true)] under [tx] to [/txs/push], by Smoogs with
    [serialize()] under [rawtx] to [/broadcast].  When the serialization
    throws, its exception leaves the call and no request is issued. *)
Theorem broadcast_transaction_handle
    (blockcypher : Blockcypher.t) (smoogs : Smoogs.t) (tx : Transaction)
    (callback : argument) (res : response) :
  isFunction callback = true →
  Blockcypher.broadcast blockcypher (ATransaction tx) callback res =
    match Transaction_serialize tx true with
    | Normal hex => {| sent := [pushRequest blockcypher (AValue hex)];
                       result := Blockcypher.broadcast_handler res |}
    | Abrupt e => {| sent := []; result := Threw e |}
    end
  ∧ Smoogs.broadcast smoogs (ATransaction tx) callback res =
    match Transaction_serialize tx false with
    | Normal hex => {| sent := [rawtxRequest smoogs (AValue hex)];
                       result := Smoogs.broadcast_handler res |}
    | Abrupt e => {| sent := []; result := Threw e |}
    end.
Proof.
  intros Hcallback.
  unfold Blockcypher.broadcast, Blockcypher.broadcast_request,
    Smoogs.broadcast, Smoogs.broadcast_request, exchange.
  rewrite Hcallback. simpl.
  split.
  - destruct (Transaction_serialize tx true) as [hex |]; simpl; [| reflexivity].
    unfold pushRequest, tokenQuery. destruct (truthy (Blockcypher.token blockcypher));
      reflexivity.
  - destruct (Transaction_serialize tx false) as [hex |]; reflexivity.
Qed.

(** X6.  A broadcast on Blockcypher that is answered with status 201 ends
    with the callback receiving no error and [body.tx.hash]; with [null]
    in its place when the body is empty; and when the body has no [tx] the
    read of [hash] throws a [TypeError] that leaves the handler. *)
Theorem Blockcypher_broadcast_created
    (self : Blockcypher.t) (transaction callback : argument) (req : request)
    (res : response) :
  Blockcypher.broadcast_request self transaction callback = Normal req →
  err res = None →
  statusCode res = 201 →
  let r := Blockcypher.broadcast self transaction callback res in
  sent r = [req]
  ∧ (truthy (body res) = false → result r = Called (ErrValue Null) (Some Null))
  ∧ (∀ tx hash, truthy (body res) = true →
       getProp (body res) "tx" = Normal tx → getProp tx "hash" = Normal hash →
       result r = Called (ErrValue Null) (Some hash))
  ∧ (truthy (body res) = true →
       getProp (body res) "tx" = Normal Undefined ∨ getProp (body res) "tx" = Normal Null →
       result r = Threw TypeError).
Proof.
  intros Hreq Herr Hstatus r. subst r.
  unfold Blockcypher.broadcast, exchange. rewrite Hreq. simpl.
  unfold Blockcypher.broadcast_handler. rewrite Herr, Hstatus. simpl.
  split; [reflexivity |]. split; [| split].
  - intros ->. reflexivity.
  - intros tx hash -> Htx Hhash. rewrite Htx. simpl. rewrite Hhash. reflexivity.
  - intros -> [Htx | Htx]; rewrite Htx; reflexivity.
Qed.

(** X7.  A broadcast on Blockcypher that is answered, without transport
    error, with a status other than 201 and a body whose [error] is
    neither a string nor an array (a page that is no JSON, a document
    without [error], no body at all) throws a [TypeError] out of the
    handler: the callback is not invoked. *)
Theorem Blockcypher_broadcast_unreadable_error
    (self : Blockcypher.t) (transaction callback : argument) (req : request)
    (res : response) :
  Blockcypher.broadcast_request self transaction callback = Normal req →
  err res = None →
  statusCode res ≠ 201 →
  (∀ message, getProp (body res) "error" ≠ Normal (Str message)) →
  (∀ items, getProp (body res) "error" ≠ Normal (Arr items)) →
  Blockcypher.broadcast self transaction callback res =
    {| sent := [req]; result := Threw TypeError |}.
Proof.
  intros Hreq Herr Hstatus Hstring Harray. apply Z.eqb_neq in Hstatus.
  unfold Blockcypher.broadcast, exchange. rewrite Hreq. f_equal.
  unfold Blockcypher.broadcast_handler. rewrite Herr, Hstatus. simpl.
  destruct (getProp (body res) "error") as [message | e] eqn:Hprop; simpl.
  - destruct message; try reflexivity.
    + exfalso. apply (Hstring s). reflexivity.
    + exfalso. apply (Harray items). reflexivity.
  - unfold getProp in Hprop. destruct (body res); congruence.
Qed.

(** X8.  The only error object the handler of Smoogs' [broadcast] passes
    to the callback is the transport's: a refusal of the provider is
    never turned into an [AlreadyBroadcastedError] or any other error
    object. *)
Theorem Smoogs_broadcast_error_object
    (res : response) (e : error) (r : option value) :
  Smoogs.broadcast_handler res = Called (ErrObject e) r →
  err res = Some e.
Proof.
  unfold Smoogs.broadcast_handler, errOrValue.
  destruct (err res) as [e' |]; simpl.
  - intros [= <- _]. reflexivity.
  - destruct (negb (statusCode res =? 200)); [discriminate |].
    destruct (truthy (body res)); [| discriminate].
    destruct (getProp (body res) "txid"); discriminate.
Qed.

End BroadcastAnswers.

Lemma broadcast_transaction_handle_witness :
  Blockcypher.broadcast Sample.blockcypher (@ATransaction Sample.types "0100beef") AFunction
    {| err := None; statusCode := 201;
       body := Obj [("tx", Obj [("hash", Str Sample.txid1)])] |}
  = {| sent := [pushRequest Sample.blockcypher (AValue (Str "0100beef"))];
       result := Called (ErrValue Null) (Some (Str Sample.txid1)) |}
  ∧ Smoogs.broadcast Sample.smoogs (@ATransaction Sample.types "0100beef") AFunction
      {| err := None; statusCode := 201;
         body := Obj [("tx", Obj [("hash", Str Sample.txid1)])] |}
  = {| sent := [rawtxRequest Sample.smoogs (AValue (Str "0100beef"))];
       result := Called (ErrValue (Obj [("tx", Obj [("hash", Str Sample.txid1)])])) None |}.
Proof.
  apply (broadcast_transaction_handle (B := Sample.bitcore) Sample.blockcypher
           Sample.smoogs "0100beef" AFunction).
  reflexivity.
Defined.

Lemma Blockcypher_broadcast_created_witness :
  let r := Blockcypher.broadcast Sample.blockcypher (AValue (Str "0100beef")) AFunction
             {| err := None; statusCode := 201; body := Undefined |} in
  sent r = [pushRequest Sample.blockcypher (AValue (Str "0100beef"))]
  ∧ result r = Called (ErrValue Null) (Some Null).
Proof.
  intros r.
  destruct (Blockcypher_broadcast_created (B := Sample.bitcore) Sample.blockcypher
              (AValue (Str "0100beef")) AFunction
              (pushRequest Sample.blockcypher (AValue (Str "0100beef")))
              {| err := None; statusCode := 201; body := Undefined |}
              eq_refl eq_refl eq_refl) as (Hsent & Hempty & _).
  split; [exact Hsent | apply Hempty; reflexivity].
Defined.

Lemma Blockcypher_broadcast_unreadable_error_witness :
  Blockcypher.broadcast Sample.blockcypher (AValue (Str "0100beef")) AFunction
    {| err := None; statusCode := 502; body := Str "<html>Service Unavailable</html>" |}
  = {| sent := [pushRequest Sample.blockcypher (AValue (Str "0100beef"))];
       result := Threw TypeError |}.
Proof.
  apply (Blockcypher_broadcast_unreadable_error (B := Sample.bitcore));
    [reflexivity | reflexivity | simpl; lia | discriminate | discriminate].
Defined.

Lemma Smoogs_broadcast_error_object_witness :
  err {| err := Some (TransportError "ECONNRESET"); statusCode := 0; body := Undefined |}
  = Some (TransportError "ECONNRESET").
Proof.
  apply (Smoogs_broadcast_error_object
           {| err := Some (TransportError "ECONNRESET"); statusCode := 0; body := Undefined |}
           (TransportError "ECONNRESET") None).
  reflexivity.
Defined.

Lemma Blockcypher_broadcast_other_error_witness :
  Blockcypher.broadcast Sample.blockcypher (AValue (Str "0100beef")) AFunction
    {| err := None; statusCode := 400;
       body := Obj [("error", Str "Error validating transaction: missing inputs.")] |}
  = {| sent := [pushRequest Sample.blockcypher (AValue (Str "0100beef"))];
       result := Called (ErrValue
                   (Obj [("error", Str "Error validating transaction: missing inputs.")]))
                   None |}.
Proof.
  apply (Blockcypher_broadcast_other_error (B := Sample.bitcore)) with
    (message := "Error validating transaction: missing inputs.");
    [reflexivity | reflexivity | simpl; lia | reflexivity |].
  intros Hcontains. apply stringIndexOf_contains in Hcontains; [| discriminate].
  vm_compute in Hcontains. discriminate.
Defined.

(** ** Fee estimation: tiers and answers *)

Section FeeAnswers.
Context {J : Json} {B : Bitcore}.

(** Among the tiers of a chain document, the one for a parsed target is an
    estimate for at most that many blocks, and a larger parsed target never
    has an estimate for fewer blocks. *)
Lemma selectTier_monotone
    (param : value) (estimation : FeeEstimation.tiers) (N M : Z) :
  FeeEstimation.fromBlockcypher param = Normal estimation →
  0 ≤ N ≤ M →
  FeeEstimation.withinBlocks (Blockcypher.selectTier (Some N) estimation) ≤ N
  ∧ FeeEstimation.withinBlocks (Blockcypher.selectTier (Some N) estimation)
    ≤ FeeEstimation.withinBlocks (Blockcypher.selectTier (Some M) estimation).
Proof.
  intros Hparam [HN HM].
  destruct (fromBlockcypher_withinBlocks param estimation Hparam) as (Hhigh & Hmedium & Hlow).
  unfold Blockcypher.selectTier, Blockcypher.lessThan.
  destruct (Z.ltb_spec N 3), (Z.ltb_spec N 7), (Z.ltb_spec M 3), (Z.ltb_spec M 7);
    rewrite ?Hhigh, ?Hmedium, ?Hlow; lia.
Qed.

(** For an integer target up to [MAX_SAFE_INTEGER], answered with status
    200 and a chain document, the callback receives the tier selected for
    the target itself. *)
Lemma Blockcypher_feeEstimation_selects
    (self : Blockcypher.t) (N : Z) (callback : argument) (res : response)
    (estimation : FeeEstimation.tiers) :
  0 ≤ N ≤ MAX_SAFE_INTEGER →
  isFunction callback = true →
  err res = None →
  statusCode res = 200 →
  FeeEstimation.fromBlockcypher (body res) = Normal estimation →
  result (Blockcypher.feeEstimation self (AValue (Num N)) callback res) =
    Called (ErrValue Null) (Some (Blockcypher.selectTier (Some N) estimation)).
Proof.
  intros Hsafe Hcallback Herr Hstatus Hbody.
  unfold Blockcypher.feeEstimation, exchange, Blockcypher.feeEstimation_request.
  rewrite Hcallback. simpl.
  assert (Hcheck : (0 <=? N) = true) by (apply Z.leb_le, Hsafe).
  rewrite Hcheck. simpl.
  unfold Blockcypher.feeEstimation_handler.
  rewrite Herr, Hstatus, Hbody. simpl.
  rewrite (parseInt10_Num N Hsafe). reflexivity.
Qed.

(** X9.  For integer targets from 0 to [MAX_SAFE_INTEGER], answered with
    status 200 and a chain document, the estimate Blockcypher's
    [feeEstimation] hands the callback for a target of [N] blocks is an
    estimate for at most [N] blocks, and for a larger target [M] the
    callback never receives an estimate for fewer blocks. *)
Theorem Blockcypher_feeEstimation_within_target
    (self : Blockcypher.t) (N M : Z) (callback : argument) (res : response)
    (estimation : FeeEstimation.tiers) :
  0 ≤ N ≤ M →
  M ≤ MAX_SAFE_INTEGER →
  isFunction callback = true →
  err res = None →
  statusCode res = 200 →
  FeeEstimation.fromBlockcypher (body res) = Normal estimation →
  ∃ forN forM,
    result (Blockcypher.feeEstimation self (AValue (Num N)) callback res)
    = Called (ErrValue Null) (Some forN)
    ∧ result (Blockcypher.feeEstimation self (AValue (Num M)) callback res)
      = Called (ErrValue Null) (Some forM)
    ∧ FeeEstimation.withinBlocks forN ≤ N
    ∧ FeeEstimation.withinBlocks forN ≤ FeeEstimation.withinBlocks forM.
Proof.
  intros HNM HM Hcallback Herr Hstatus Hbody.
  exists (Blockcypher.selectTier (Some N) estimation),
         (Blockcypher.selectTier (Some M) estimation).
  split; [| split].
  - apply Blockcypher_feeEstimation_selects; [lia | assumption ..].
  - apply Blockcypher_feeEstimation_selects; [lia | assumption ..].
  - exact (selectTier_monotone (body res) estimation N M Hbody HNM).
Qed.


(** X11.  A fee estimation on Smoogs for an integer target [N] from 0 to
    [MAX_SAFE_INTEGER] asks for [/fee/N]; answered with status 200 it
    hands the callback the target and [body.feePerKb] as it came,
    [undefined] included; a body that is [undefined] or [null] makes the
    handler throw. *)
Theorem Smoogs_feeEstimation_estimation
    (self : Smoogs.t) (N : Z) (callback : argument) (res : response) :
  0 ≤ N ≤ MAX_SAFE_INTEGER →
  isFunction callback = true →
  err res = None →
  statusCode res = 200 →
  Smoogs.feeEstimation self (AValue (Num N)) callback res =
    {| sent := [feeRequest self N];
       result :=
         match getProp (body res) "feePerKb" with
         | Normal fee =>
             Called (ErrValue Null)
                    (Some {| Smoogs.withinBlocks := Some N; Smoogs.feePerKb := fee |})
         | Abrupt e => Threw e
         end |}.
Proof.
  intros HN Hcallback Herr Hstatus.
  assert (Hcheck : (0 <=? N) = true) by (apply Z.leb_le, HN).
  unfold Smoogs.feeEstimation, Smoogs.feeEstimation_request, exchange.
  rewrite Hcallback. simpl. rewrite Hcheck. simpl.
  unfold Smoogs.feeEstimation_handler, feeRequest.
  rewrite Herr, Hstatus, (parseInt10_Num N HN). reflexivity.
Qed.

End FeeAnswers.

Lemma Blockcypher_feeEstimation_within_target_witness :
  ∃ forN forM,
    result (Blockcypher.feeEstimation (J := Sample.json) Sample.blockcypher
              (AValue (Num 5)) AFunction (Sample.ok Sample.chainText))
    = Called (ErrValue Null) (Some forN)
    ∧ result (Blockcypher.feeEstimation (J := Sample.json) Sample.blockcypher
                (AValue (Num 100)) AFunction (Sample.ok Sample.chainText))
      = Called (ErrValue Null) (Some forM)
    ∧ FeeEstimation.withinBlocks forN ≤ 5
    ∧ FeeEstimation.withinBlocks forN ≤ FeeEstimation.withinBlocks forM.
Proof.
  apply (Blockcypher_feeEstimation_within_target (J := Sample.json) (B := Sample.bitcore)
           Sample.blockcypher 5 100 AFunction (Sample.ok Sample.chainText)
           {| FeeEstimation.high := FeeEstimation.new 0 (Some 30000);
              FeeEstimation.medium := FeeEstimation.new 3 (Some 20000);
              FeeEstimation.low := FeeEstimation.new 7 (Some 10000) |});
    [lia | unfold MAX_SAFE_INTEGER; lia | reflexivity ..].
Defined.


Lemma Smoogs_feeEstimation_estimation_witness :
  Smoogs.feeEstimation Sample.smoogs (AValue (Num 4)) AFunction
    {| err := None; statusCode := 200; body := Obj [("feePerKb", Num 12000)] |}
  = {| sent := [feeRequest Sample.smoogs 4];
       result := Called (ErrValue Null)
                   (Some {| Smoogs.withinBlocks := Some 4; Smoogs.feePerKb := Num 12000 |}) |}.
Proof.
  apply (Smoogs_feeEstimation_estimation (B := Sample.bitcore) Sample.smoogs 4 AFunction
           {| err := None; statusCode := 200; body := Obj [("feePerKb", Num 12000)] |});
    [unfold MAX_SAFE_INTEGER; lia | reflexivity | reflexivity | reflexivity].
Defined.

(** ** Construction: the network *)

Section ConstructionNetwork.
Context {B : Bitcore}.

(** X12.  A network identifier in the place of the url decides both
    fields of the adapter: the url is the provider's endpoint for that
    network and the network is that network, whatever the network
    argument says (given that [Networks.get] returns a network it is
    handed). *)
Theorem constructor_identifier_decides
    (token : value) (id network : argument) (n : Network) :
  truthyArg id = true →
  Networks_get id = Some n →
  Networks_get (ANetwork n) = Some n →
  Blockcypher.new token id network =
    {| Blockcypher.token := token;
       Blockcypher.url := AValue (Str (blockcypherEndpoint n));
       Blockcypher.network := n |}
  ∧ Smoogs.new id network =
    {| Smoogs.url := AValue (Str (smoogsEndpoint n)); Smoogs.network := n |}.
Proof.
  intros Htruthy Hid Hn.
  unfold Blockcypher.new, Smoogs.new. rewrite Htruthy. simpl.
  unfold Blockcypher.init, Smoogs.init. rewrite Hid, Hn. simpl.
  unfold blockcypherEndpoint, smoogsEndpoint.
  destruct (decide (n = Networks_livenet)); split; reflexivity.
Qed.

(** X13.  When the first argument is no network identifier and one of
    the two arguments is given, the first argument is kept as the url
    whatever it is ([undefined] included: no endpoint is derived from the
    network argument), and the network is the one [Networks.get] finds for
    the network argument, the default network when it finds none. *)
Theorem constructor_url_kept (token : value) (url network : argument) :
  truthyArg url || truthyArg network = true →
  Networks_get url = None →
  Blockcypher.new token url network =
    {| Blockcypher.token := token;
       Blockcypher.url := url;
       Blockcypher.network := default Networks_defaultNetwork (Networks_get network) |}
  ∧ Smoogs.new url network =
    {| Smoogs.url := url;
       Smoogs.network := default Networks_defaultNetwork (Networks_get network) |}.
Proof.
  intros Hgiven Hurl.
  assert (Hnot : negb (truthyArg url) && negb (truthyArg network) = false).
  { destruct (truthyArg url), (truthyArg network); try reflexivity. discriminate. }
  unfold Blockcypher.new, Smoogs.new. rewrite Hnot.
  unfold Blockcypher.init, Smoogs.init. rewrite Hurl. split; reflexivity.
Qed.

End ConstructionNetwork.

Lemma constructor_identifier_decides_witness :
  Blockcypher.new (B := Sample.bitcore) (Str "secret") (AValue (Str "testnet"))
    (AValue (Str "livenet"))
  = @Blockcypher.Build_t Sample.bitcore (Str "secret")
      (AValue (Str "https://api.blockcypher.com/v1/btc/test3")) Sample.testnet
  ∧ Smoogs.new (B := Sample.bitcore) (AValue (Str "testnet")) (AValue (Str "livenet"))
  = @Smoogs.Build_t Sample.bitcore
      (AValue (Str "https://smoogs.io/api/testing/blockchain")) Sample.testnet.
Proof.
  apply (constructor_identifier_decides (B := Sample.bitcore) (Str "secret")
           (AValue (Str "testnet")) (AValue (Str "livenet")) Sample.testnet);
    reflexivity.
Defined.

Lemma constructor_url_kept_witness :
  Blockcypher.new (B := Sample.bitcore) (Str "secret") (AValue Undefined)
    (AValue (Str "testnet"))
  = @Blockcypher.Build_t Sample.bitcore (Str "secret") (AValue Undefined) Sample.testnet
  ∧ Smoogs.new (B := Sample.bitcore) (AValue Undefined) (AValue (Str "testnet"))
  = @Smoogs.Build_t Sample.bitcore (AValue Undefined) Sample.testnet.
Proof.
  apply (constructor_url_kept (B := Sample.bitcore) (Str "secret") (AValue Undefined)
           (AValue (Str "testnet")));
    reflexivity.
Defined.

(** ** Unspent outputs: requests and decoding *)

Section UnspentOutputs.
Context {J : Json} {B : Bitcore}.

Lemma getAddress_requests (self : Blockcypher.t) (addresses : list Address) :
  mapM (Blockcypher.getAddress_request self) addresses
  = Normal (map (addressRequest self) addresses).
Proof.
  induction addresses as [| a addresses IH]; simpl; [reflexivity |].
  rewrite IH.
  unfold Blockcypher.getAddress_request, Blockcypher.requestGet, addressRequest,
    tokenQuery, Blockcypher.OPTS.
  destruct (truthy (Blockcypher.token self)); reflexivity.
Qed.

(** X14.  Once [new Address] has accepted every entry, Blockcypher issues
    one GET per address, in the order of the list, each to
    [/addrs/<address>] with the options and the token; Smoogs issues a
    single GET to [/utxos] with the addresses joined by commas.  The
    requests are the same whatever the responses are. *)
Theorem getUnspentUtxos_requests_sent
    (blockcypher : Blockcypher.t) (smoogs : Smoogs.t)
    (addresses : Blockcypher.addressesArg) (callback : argument)
    (accepted : list Address)
    (responses : list response) (arrival : list nat) (res : response) :
  isFunction callback = true →
  mapM Address_new (Blockcypher.toArray addresses) = Normal accepted →
  sent (Blockcypher.getUnspentUtxos blockcypher addresses callback responses arrival)
    = map (addressRequest blockcypher) accepted
  ∧ sent (Smoogs.getUnspentUtxos smoogs addresses callback res)
    = [utxosRequest smoogs accepted].
Proof.
  intros Hcallback Haccepted.
  unfold Blockcypher.getUnspentUtxos, Blockcypher.getUnspentUtxos_requests,
    Smoogs.getUnspentUtxos, Smoogs.getUnspentUtxos_request, exchange.
  rewrite Hcallback, Haccepted. simpl.
  rewrite getAddress_requests. split; reflexivity.
Qed.

(** X15.  An address document that is a JSON object in which [txrefs]
    and [unconfirmed_txrefs] are missing, or are no arrays, decodes to no
    output: it is no error. *)
Theorem processAddressInfoIntoOutputs_no_references
    (rawInfo : value) (props : list (string * value)) :
  JSON_parse (ToString rawInfo) = Normal (Obj props) →
  isArray (lookup_prop "txrefs" props) = false →
  isArray (lookup_prop "unconfirmed_txrefs" props) = false →
  Blockcypher.processAddressInfoIntoOutputs rawInfo = Normal [].
Proof.
  intros Hparse Htxrefs Hunconfirmed.
  unfold Blockcypher.processAddressInfoIntoOutputs. rewrite Hparse. simpl.
  destruct (lookup_prop "txrefs" props); try discriminate;
    destruct (lookup_prop "unconfirmed_txrefs" props); try discriminate;
    reflexivity.
Qed.

(** X16.  The decoding of an address document is all or nothing: when a
    reference cannot be put into output format (a reference that is
    [null], a script that yields no address), the exception of the first
    such reference is what the decoding throws, and no output of the other
    references is kept. *)
Theorem processAddressInfoIntoOutputs_bad_reference
    (rawInfo : value) (props : list (string * value))
    (before after : list value) (reference : value) (e : error) :
  JSON_parse (ToString rawInfo) = Normal (Obj props) →
  (Blockcypher.getMaybeArray (lookup_prop "txrefs" props) ++
   Blockcypher.getMaybeArray (lookup_prop "unconfirmed_txrefs" props))%list
    = (before ++ reference :: after)%list →
  Forall (fun r => ∃ o, Blockcypher.blockcypherToBitcoreOutputFormat r = Normal o) before →
  Blockcypher.blockcypherToBitcoreOutputFormat reference = Abrupt e →
  Blockcypher.processAddressInfoIntoOutputs rawInfo = Abrupt e.
Proof.
  intros Hparse Hreferences Hbefore Hreference.
  unfold Blockcypher.processAddressInfoIntoOutputs. rewrite Hparse. simpl.
  rewrite Hreferences,
    (mapM_Abrupt Blockcypher.blockcypherToBitcoreOutputFormat before after reference e
       Hbefore Hreference).
  reflexivity.
Qed.

End UnspentOutputs.

Lemma getUnspentUtxos_requests_sent_witness :
  sent (Blockcypher.getUnspentUtxos (J := Sample.json) Sample.blockcypher
          (Blockcypher.Several [AValue (Str "1Owner"); AValue (Str "mOther")]) AFunction
          [] [])
    = [ {| req_method := GET;
           req_base := AValue (Str "https://api.blockcypher.com/v1/btc/main");
           req_path := "/addrs/1Owner?unspentOnly=true&includeScript=true&token=secret";
           req_contentType := true;
           req_json := NoJson |};
        {| req_method := GET;
           req_base := AValue (Str "https://api.blockcypher.com/v1/btc/main");
           req_path := "/addrs/mOther?unspentOnly=true&includeScript=true&token=secret";
           req_contentType := true;
           req_json := NoJson |} ]
  ∧ sent (Smoogs.getUnspentUtxos Sample.smoogs
            (Blockcypher.Several [AValue (Str "1Owner"); AValue (Str "mOther")]) AFunction
            (Sample.ok ""))
    = [ {| req_method := GET;
           req_base := AValue (Str "https://smoogs.io/api/v1/blockchain");
           req_path := "/utxos?addresses=1Owner,mOther";
           req_contentType := false;
           req_json := JsonTrue |} ].
Proof.
  apply (getUnspentUtxos_requests_sent (J := Sample.json) (B := Sample.bitcore)
           Sample.blockcypher Sample.smoogs
           (Blockcypher.Several [AValue (Str "1Owner"); AValue (Str "mOther")]) AFunction
           [ {| Sample.address_network := Sample.livenet; Sample.address_text := "1Owner" |};
             {| Sample.address_network := Sample.testnet; Sample.address_text := "mOther" |} ]);
    reflexivity.
Defined.

Lemma processAddressInfoIntoOutputs_no_references_witness :
  Blockcypher.processAddressInfoIntoOutputs (J := Sample.json) (B := Sample.bitcore)
    (Str (Sample.quoted "{'address':'1Owner','balance':0,'txrefs':null}"))
  = Normal [].
Proof.
  apply (processAddressInfoIntoOutputs_no_references (J := Sample.json) (B := Sample.bitcore)
           (Str (Sample.quoted "{'address':'1Owner','balance':0,'txrefs':null}"))
           [("address", Str "1Owner"); ("balance", Num 0); ("txrefs", Null)]);
    reflexivity.
Defined.

Lemma processAddressInfoIntoOutputs_bad_reference_witness :
  Blockcypher.processAddressInfoIntoOutputs (J := Sample.json) (B := Sample.bitcore)
    (Str (Sample.quoted "{'txrefs':[{'tx_hash':'a1b2','tx_output_n':1,'value':7000,'script':'pay:1Owner'}],'unconfirmed_txrefs':[{'tx_hash':'c3d4','tx_output_n':0,'value':100,'script':'?'},null]}"))
  = Abrupt (CodecError "Invalid script").
Proof.
  apply (processAddressInfoIntoOutputs_bad_reference (J := Sample.json) (B := Sample.bitcore)
           _
           [("txrefs", Arr [Obj [("tx_hash", Str "a1b2"); ("tx_output_n", Num 1);
                                 ("value", Num 7000); ("script", Str "pay:1Owner")]]);
            ("unconfirmed_txrefs",
             Arr [Obj [("tx_hash", Str "c3d4"); ("tx_output_n", Num 0);
                       ("value", Num 100); ("script", Str "?")]; Null])]
           [Obj [("tx_hash", Str "a1b2"); ("tx_output_n", Num 1);
                 ("value", Num 7000); ("script", Str "pay:1Owner")]]
           [Null]
           (Obj [("tx_hash", Str "c3d4"); ("tx_output_n", Num 0);
                 ("value", Num 100); ("script", Str "?")]));
    [reflexivity | reflexivity | | reflexivity].
  repeat constructor. eexists. reflexivity.
Defined.

Lemma Blockcypher_getUnspentUtxos_completes_witness :
  Blockcypher.getUnspentUtxos (J := Sample.json) Sample.blockcypher
    (Blockcypher.Several [AValue (Str "1Owner"); AValue (Str "1Other")]) AFunction
    [Sample.ok Sample.addressText; Sample.ok Sample.overlappingText] [1; 0]%nat
  = {| sent := [addressRequest Sample.blockcypher
                  {| Sample.address_network := Sample.livenet;
                     Sample.address_text := "1Owner" |};
                addressRequest Sample.blockcypher
                  {| Sample.address_network := Sample.livenet;
                     Sample.address_text := "1Other" |}];
       result := Called (ErrValue Null)
                   (Some (flatten (map (slot (J := Sample.json) (B := Sample.bitcore))
                                       [Sample.ok Sample.addressText;
                                        Sample.ok Sample.overlappingText]))) |}.
Proof.
  apply (Blockcypher_getUnspentUtxos_completes (J := Sample.json) (B := Sample.bitcore)).
  - reflexivity.
  - reflexivity.
  - simpl. apply Permutation_swap.
  - intros i (res & f & Hres & Hf).
    destruct i as [| [| i]]; simpl in Hres; [| | discriminate];
      injection Hres as <-; vm_compute in Hf; discriminate.
Defined.

Section SmoogsAnswers.
Context {B : Bitcore}.

(** X20.  [getTransaction] for a string of 64 characters asks for
    [/tx/<txid>]; answered with status 200 it hands the callback the
    [Transaction] built from the body, and when that constructor throws,
    its exception leaves the handler. *)
Theorem Smoogs_getTransaction_decodes
    (self : Smoogs.t) (txid : string) (callback : argument) (res : response) :
  isFunction callback = true →
  String.length txid = 64%nat →
  err res = None →
  statusCode res = 200 →
  Smoogs.getTransaction self (AValue (Str txid)) callback res =
    {| sent := [txRequest self txid];
       result :=
         match Transaction_new (body res) with
         | Normal tx => Called (ErrValue Null) (Some tx)
         | Abrupt e => Threw e
         end |}.
Proof.
  intros Hcallback Hlength Herr Hstatus.
  unfold Smoogs.getTransaction, Smoogs.getTransaction_request, exchange.
  rewrite Hcallback. simpl. rewrite Hlength. simpl.
  unfold Smoogs.getTransaction_handler, txRequest.
  rewrite Herr, Hstatus. reflexivity.
Qed.

End SmoogsAnswers.

Lemma Smoogs_getTransaction_decodes_witness :
  Smoogs.getTransaction Sample.smoogs (AValue (Str Sample.txid1)) AFunction
    {| err := None; statusCode := 200; body := Str "0100beef" |}
  = {| sent := [txRequest Sample.smoogs Sample.txid1];
       result := Called (ErrValue Null) (Some ("0100beef" : @Transaction Sample.types)) |}.
Proof.
  apply (Smoogs_getTransaction_decodes (B := Sample.bitcore) Sample.smoogs Sample.txid1
           AFunction {| err := None; statusCode := 200; body := Str "0100beef" |});
    reflexivity.
Defined.

Lemma Smoogs_getUnspentUtxos_conversion_error_witness :
  Smoogs.getUnspentUtxos_handler (B := Sample.bitcore)
    {| err := None; statusCode := 200;
       body := Arr [Obj [("txid", Str "?"); ("vout", Num 0); ("satoshis", Num 50000)]] |}
  = Called (ErrValue Null)
      (Some (Smoogs.Unconverted
               (Arr [Obj [("txid", Str "?"); ("vout", Num 0); ("satoshis", Num 50000)]]))).
Proof.
  apply (Smoogs_getUnspentUtxos_conversion_error (B := Sample.bitcore)
           {| err := None; statusCode := 200;
              body := Arr [Obj [("txid", Str "?"); ("vout", Num 0);
                                ("satoshis", Num 50000)]] |}
           (CodecError "Invalid unspent output"));
    [reflexivity | reflexivity | reflexivity | discriminate].
Defined.

(** An object with a [length] is visited as an array-like: with length 0
    none of its properties is converted, and with a length of [2^32] the
    [RangeError] of [_.map] is dropped like any other. *)
Example Smoogs_getUnspentUtxos_array_like :
  Smoogs.getUnspentUtxos_handler (B := Sample.bitcore)
    {| err := None; statusCode := 200;
       body := Obj [("a", Obj [("txid", Str "?")]); ("length", Num 0)] |}
  = Called (ErrValue Null) (Some (Smoogs.Converted []))
  ∧ Smoogs.convert (B := Sample.bitcore)
      (Obj [("0", Str "?"); ("length", Num 2)])
  = mapM (UnspentOutput_ofValue (Bitcore := Sample.bitcore)) [Str "?"; Undefined]
  ∧ Smoogs.getUnspentUtxos_handler (B := Sample.bitcore)
      {| err := None; statusCode := 200; body := Obj [("length", Num (2 ^ 32))] |}
  = Called (ErrValue Null) (Some (Smoogs.Unconverted (Obj [("length", Num (2 ^ 32))]))).
Proof. repeat split. Qed.
